(** * goboscript: the project driver (src/goboscript/project.py)

    A shallow embedding of [sprite_from_file] and [build_project].  The
    driver reads source files, runs the two passes of the parser module on
    each of them and hands the assembled list of sprites to the exporter.

    Python exceptions are modelled by the [result] type, the effects of the
    driver (opening files, printing, exporting) by a trace of events that a
    small writer-and-error monad accumulates.  The file system is read
    through a [World]: what [glob] enumerates and what [open(...).read()]
    returns.  The parser module and gobomatic, whose code is not in
    project.py, are interfaces the driver is verified against. *)

From Stdlib Require Import String Ascii List Bool Arith Lia Permutation.
Import ListNotations.
Open Scope string_scope.
Open Scope list_scope.
#[local] Set Warnings "-register-all".

(** ** Strings: the pieces of Python the driver uses *)

(** [s[:-k]]: all but the last [k] characters (the empty string when [s]
    has no more than [k] characters).  A string here is a sequence of
    8-bit characters, a Python string one of code points: the two count
    alike on ASCII text. *)
Definition drop_last (k : nat) (s : string) : string :=
  substring 0 (String.length s - k) s.

(** [name or default]: [None] and the empty string are falsy. *)
Definition py_or (name : option string) (default : string) : string :=
  match name with
  | Some n => if String.eqb n "" then default else n
  | None => default
  end.

(** [os.path] (posixpath). *)
Module os_path.

Definition sep : ascii := "/"%char.

Fixpoint has_sep (p : string) : bool :=
  match p with
  | EmptyString => false
  | String c r => Ascii.eqb c sep || has_sep r
  end.

(** [basename p = p[p.rfind('/') + 1:]] *)
Fixpoint basename (p : string) : string :=
  match p with
  | EmptyString => EmptyString
  | String c r =>
      if has_sep r then basename r
      else if Ascii.eqb c sep then r else p
  end.

End os_path.
Import os_path.

(** ** gobomatic: the values the driver builds *)

(** One node of the target program.  The block catalogue belongs to
    gobomatic; a block is kept as an opcode with its arguments and its
    nested blocks. *)
Inductive Block : Type :=
| Blk (opcode : string) (args : list string) (substack : list Block).

Module gm.

(** [gm.Sprite(name, costumes)]: the remaining attributes start empty. *)
Record Sprite : Type := mkSprite {
  name : string;
  costumes : list string;
  variables : list string;
  lists : list string;
  blocks : list Block
}.

Definition new_Sprite (n : string) (cs : list string) : Sprite :=
  mkSprite n cs [] [] [].

(** [sprite.blocks.extend(bs)] *)
Definition blocks_extend (s : Sprite) (bs : list Block) : Sprite :=
  mkSprite (name s) (costumes s) (variables s) (lists s) (blocks s ++ bs).

(** [gm.Project(sprites)] *)
Record Project : Type := mkProject { sprites : list Sprite }.

End gm.

(** ** Exceptions, events and the monad of the driver *)

Inductive exn : Type :=
| OSError (file : string)
| SyntaxError (msg : string)
| DuplicateDeclarationError (name : string)
| UnresolvedReferenceError (name : string)
| SemanticError (msg : string)
| DuplicateSpriteNameError (name : string)
| DuplicateStageError
| UnboundLocalError (var : string)
| LibraryError (msg : string).

Inductive result (A : Type) : Type :=
| Ok (a : A)
| Raise (e : exn).
Arguments Ok {A} a.
Arguments Raise {A} e.

(** A function signature collected by the first pass. *)
Record FuncSig : Type := mkFuncSig { fname : string; arity : nat }.

(** What [print] is given. *)
Inductive printed : Type :=
| PrNames (l : list string)
| PrFuncs (l : list FuncSig)
| PrBlocks (l : list Block).

Inductive event : Type :=
| EvOpen (file : string)
| EvPrint (v : printed)
| EvExport (p : gm.Project) (out : string).

Definition trace : Type := list event.

(** A computation: the events it performs, then its value or exception. *)
Definition M (A : Type) : Type := (trace * result A)%type.

Definition ret {A} (a : A) : M A := ([], Ok a).

Definition raise {A} (e : exn) : M A := ([], Raise e).

Definition emit (ev : event) : M unit := ([ev], Ok tt).

Definition lift {A} (r : result A) : M A := ([], r).

Definition bind {A B} (m : M A) (k : A -> M B) : M B :=
  match snd m with
  | Ok a => (fst m ++ fst (k a), snd (k a))
  | Raise e => (fst m, Raise e)
  end.

Notation "x <- m ;; k" := (bind m (fun x => k))
  (at level 61, m at next level, right associativity).
Notation "m ;;; k" := (bind m (fun _ => k))
  (at level 61, right associativity).

(** [for x in xs: st = body(st, x)], stopping at the first exception. *)
Fixpoint for_each {S X} (body : S -> X -> M S) (st : S) (xs : list X) : M S :=
  match xs with
  | [] => ret st
  | x :: xs' => st' <- body st x ;; for_each body st' xs'
  end.

(** The files a trace opened, in order. *)
Fixpoint opened (t : trace) : list string :=
  match t with
  | [] => []
  | EvOpen f :: t' => f :: opened t'
  | _ :: t' => opened t'
  end.

(** The projects a trace exported, in order. *)
Fixpoint exported (t : trace) : list (gm.Project * string) :=
  match t with
  | [] => []
  | EvExport p out :: t' => (p, out) :: exported t'
  | _ :: t' => exported t'
  end.

(** ** The file system and the parser module *)

(** [glob pattern] is the enumeration the file system gives, in its order;
    [read file] is [open(file, "r").read()]. *)
Record World : Type := mkWorld {
  glob : string -> list string;
  read : string -> result string
}.

(** The attributes of a [parser.FirstPass] object the driver reads. *)
Record FirstPass : Type := mkFirstPass {
  vars : list string;
  lsts : list string;
  funcs : list FuncSig
}.

(** The interface of the parser module as [project.py] calls it.
    [visit sprite tree] is [FirstPass(sprite).visit(tree)]: the pass is
    handed the sprite object and may change it, so the sprite comes back
    with the attributes of the pass.  [transform sprite vars lsts funcs
    tree] is [SecondPass(sprite, vars, lsts, funcs).transform(tree)]: what
    the pass can look names up in is what it is constructed from.  The two
    constructors only store their arguments. *)
Class Parser : Type := mkParser {
  AST : Type;
  parse : string -> result AST;
  visit : gm.Sprite -> AST -> result (gm.Sprite * FirstPass);
  transform : gm.Sprite -> list string -> list string -> list FuncSig ->
              AST -> result (gm.Sprite * list Block)
}.

(** The interface of gobomatic as [project.py] calls it.
    [gm.Project(sprites)] raises, as [Project_init sprites] tells, or is
    the project that holds the sprites it was given.  [.export(out)]
    raises or returns as [Project_export] tells: it works on the file
    system. *)
Class Gobomatic : Type := mkGobomatic {
  Project_init : list gm.Sprite -> result unit;
  Project_export : World -> gm.Project -> string -> result unit
}.

(** ** project.py *)

Section Driver.

Context {P : Parser} {G : Gobomatic}.
Variable w : World.

Definition open_read (file : string) : M string :=
  emit (EvOpen file) ;;; lift (read w file).

Definition print (v : printed) : M unit := emit (EvPrint v).

(** [gm.Project(sprites)] *)
Definition new_Project (sprites : list gm.Sprite) : M gm.Project :=
  lift (Project_init sprites) ;;; ret (gm.mkProject sprites).

(** [p.export(out)]: the exporter is entered, then it raises or returns. *)
Definition export (p : gm.Project) (out : string) : M unit :=
  emit (EvExport p out) ;;; lift (Project_export w p out).

Definition sprite_from_file (file : string) (name : option string)
  : M gm.Sprite :=
  let sprite := gm.new_Sprite (py_or name (drop_last 3 (basename file))) [""] in
  text <- open_read file ;;
  tree <- lift (parse text) ;;
  r1 <- lift (visit sprite tree) ;;
  let sprite := fst r1 in
  let first_pass := snd r1 in
  print (PrNames (gm.costumes sprite)) ;;;
  print (PrNames (gm.variables sprite)) ;;;
  print (PrNames (gm.lists sprite)) ;;;
  print (PrFuncs (funcs first_pass)) ;;;
  r2 <- lift (transform sprite (vars first_pass) (lsts first_pass)
                        (funcs first_pass) tree) ;;
  let sprite := fst r2 in
  let blocks := snd r2 in
  print (PrBlocks blocks) ;;;
  ret (gm.blocks_extend sprite blocks).

(** The local variables of [build_project]: [stage] is unbound until a
    file named stage.gs has been compiled. *)
Record locals : Type := mkLocals {
  stage : option gm.Sprite;
  sprites : list gm.Sprite
}.

Definition loop_body (st : locals) (sprite : string) : M locals :=
  if String.eqb (basename sprite) "stage.gs" then
    s <- sprite_from_file sprite (Some "Stage") ;;
    ret (mkLocals (Some s) (sprites st))
  else
    s <- sprite_from_file sprite None ;;
    ret (mkLocals (stage st) (sprites st ++ [s])).

(** Reading the local [stage]. *)
Definition load_stage (st : locals) : M gm.Sprite :=
  match stage st with
  | Some s => ret s
  | None => raise (UnboundLocalError "stage")
  end.

Definition build_project (folder out : string) : M unit :=
  st <- for_each loop_body (mkLocals None []) (glob w (folder ++ "/*.gs")%string) ;;
  s <- load_stage st ;;
  p <- new_Project (s :: sprites st) ;;
  export p out.

End Driver.

(** ** A parser module to run the driver with

    parser.py is not part of the sources at hand.  The driver is verified
    for every [Parser]; to run it on concrete folders, the two passes are
    given below as the specification describes them, over a small
    statement language. *)

Module SpecParser.

(** Statements are separated by [;], each a keyword and a name:
    [costume n], [var n], [list n], [def n] declare; [add n] is an
    executable construct that refers to [n]. *)
Inductive node : Type :=
| NCostume (n : string)
| NVar (n : string)
| NList (n : string)
| NFunc (n : string)
| NAdd (n : string).

Fixpoint split_on (c : ascii) (s : string) : list string :=
  match s with
  | EmptyString => [EmptyString]
  | String a r =>
      if Ascii.eqb a c then EmptyString :: split_on c r
      else match split_on c r with
           | h :: t => String a h :: t
           | [] => [String a EmptyString]
           end
  end.

Definition after (kw s : string) : option string :=
  if prefix kw s
  then Some (substring (String.length kw) (String.length s - String.length kw) s)
  else None.

Definition parse_stmt (s : string) : result node :=
  match after "costume " s, after "var " s, after "list " s,
        after "def " s, after "add " s with
  | Some n, _, _, _, _ => Ok (NCostume n)
  | _, Some n, _, _, _ => Ok (NVar n)
  | _, _, Some n, _, _ => Ok (NList n)
  | _, _, _, Some n, _ => Ok (NFunc n)
  | _, _, _, _, Some n => Ok (NAdd n)
  | _, _, _, _, _ => Raise (SyntaxError s)
  end.

Fixpoint parse_stmts (ss : list string) : result (list node) :=
  match ss with
  | [] => Ok []
  | s :: ss' =>
      if String.eqb s "" then parse_stmts ss'
      else match parse_stmt s with
           | Raise e => Raise e
           | Ok n =>
               match parse_stmts ss' with
               | Raise e => Raise e
               | Ok ns => Ok (n :: ns)
               end
           end
  end.

(** Modelled from the spec: the parser collaborator of parser.py
    ([parse(text) -> AST], SyntaxError on malformed input), which is not
    among the sources.  The grammar is outside the specification; the
    statement language above is enough to write its scenarios. *)
Definition parse (text : string) : result (list node) :=
  parse_stmts (split_on ";"%char text).

Definition mem (n : string) (l : list string) : bool :=
  existsb (String.eqb n) l.

(** The names a symbol table holds. *)
Definition declared (fp : FirstPass) : list string :=
  vars fp ++ lsts fp ++ map fname (funcs fp).

(** Modelled from the spec: the declaration collector of parser.py
    ([FirstPass.visit]), which is not among the sources.  One traversal in
    document order registers each declaration in the unit's symbol table;
    costumes are recorded, in insertion order, on the unit; variables and
    lists are materialized on the unit; a redeclared name is a
    DuplicateDeclarationError. *)
Fixpoint visit_nodes (sprite : gm.Sprite) (fp : FirstPass) (tree : list node)
  : result (gm.Sprite * FirstPass) :=
  match tree with
  | [] => Ok (sprite, fp)
  | NCostume n :: tree' =>
      if mem n (gm.costumes sprite) then Raise (DuplicateDeclarationError n)
      else visit_nodes
             (gm.mkSprite (gm.name sprite) (gm.costumes sprite ++ [n])
                          (gm.variables sprite) (gm.lists sprite)
                          (gm.blocks sprite))
             fp tree'
  | NVar n :: tree' =>
      if mem n (declared fp) then Raise (DuplicateDeclarationError n)
      else visit_nodes
             (gm.mkSprite (gm.name sprite) (gm.costumes sprite)
                          (gm.variables sprite ++ [n]) (gm.lists sprite)
                          (gm.blocks sprite))
             (mkFirstPass (vars fp ++ [n]) (lsts fp) (funcs fp)) tree'
  | NList n :: tree' =>
      if mem n (declared fp) then Raise (DuplicateDeclarationError n)
      else visit_nodes
             (gm.mkSprite (gm.name sprite) (gm.costumes sprite)
                          (gm.variables sprite) (gm.lists sprite ++ [n])
                          (gm.blocks sprite))
             (mkFirstPass (vars fp) (lsts fp ++ [n]) (funcs fp)) tree'
  | NFunc n :: tree' =>
      if mem n (declared fp) then Raise (DuplicateDeclarationError n)
      else visit_nodes sprite
             (mkFirstPass (vars fp) (lsts fp) (funcs fp ++ [mkFuncSig n 0]))
             tree'
  | NAdd _ :: tree' => visit_nodes sprite fp tree'
  end.

Definition visit (sprite : gm.Sprite) (tree : list node)
  : result (gm.Sprite * FirstPass) :=
  visit_nodes sprite (mkFirstPass [] [] []) tree.

(** Where an identifier was found. *)
Inductive scope : Type := Local | Global.

(** Modelled from the spec: identifier resolution of the block generator
    of parser.py, which is not among the sources.  The unit's own symbol
    table is looked in first, then the Stage's; an identifier found in
    neither is an UnresolvedReferenceError. *)
Definition resolve (own stage : list string) (n : string) : result scope :=
  if mem n own then Ok Local
  else if mem n stage then Ok Global
  else Raise (UnresolvedReferenceError n).

(** Modelled from the spec: the block generator of parser.py
    ([SecondPass.transform]), which is not among the sources.  Its inputs
    are the tree, the unit's own tables and the Stage's table [stage];
    executable constructs are lowered in source order, each identifier
    being resolved on the way. *)
Fixpoint transform_nodes (stage vs ls : list string) (fs : list FuncSig)
  (tree : list node) : result (list Block) :=
  match tree with
  | [] => Ok []
  | NAdd n :: tree' =>
      match resolve (vs ++ ls ++ map fname fs) stage n with
      | Ok _ =>
          match transform_nodes stage vs ls fs tree' with
          | Ok bs => Ok (Blk "add" [n] [] :: bs)
          | Raise e => Raise e
          end
      | Raise e => Raise e
      end
  | _ :: tree' => transform_nodes stage vs ls fs tree'
  end.

(** [SecondPass(sprite, vars, lsts, funcs).transform(tree)].  The
    constructor, as project.py calls it, is given the unit's own tables
    and has no argument for the Stage's table: the pass is run with an
    empty one. *)
Definition transform (sprite : gm.Sprite) (vs ls : list string)
  (fs : list FuncSig) (tree : list node) : result (gm.Sprite * list Block) :=
  match transform_nodes [] vs ls fs tree with
  | Ok bs => Ok (sprite, bs)
  | Raise e => Raise e
  end.


#[global] Instance parser : Parser :=
  mkParser (list node) parse visit transform.

End SpecParser.

(** ** Folders to run the driver on *)

Fixpoint lookup (file : string) (files : list (string * string))
  : result string :=
  match files with
  | [] => Raise (OSError file)
  | (f, text) :: files' =>
      if String.eqb f file then Ok text else lookup file files'
  end.

(** ** A gobomatic to run the driver with

    gobomatic is a library of its own.  The driver is verified for every
    [Gobomatic]; to run it on concrete folders, the instance below has a
    constructor that wants a first sprite named Stage and an exporter
    that opens every costume of every sprite as a file. *)

Module ExampleGobomatic.

Definition Project_init (sprites : list gm.Sprite) : result unit :=
  match sprites with
  | s :: _ =>
      if String.eqb (gm.name s) "Stage" then Ok tt
      else Raise (LibraryError "the first sprite is not the Stage")
  | [] => Raise (LibraryError "no sprite")
  end.

Fixpoint open_all (w : World) (files : list string) : result unit :=
  match files with
  | [] => Ok tt
  | f :: files' =>
      match read w f with
      | Ok _ => open_all w files'
      | Raise e => Raise e
      end
  end.

Definition Project_export (w : World) (p : gm.Project) (out : string)
  : result unit :=
  open_all w (concat (map gm.costumes (gm.sprites p))).

#[global] Instance gobomatic : Gobomatic :=
  mkGobomatic Project_init Project_export.

End ExampleGobomatic.

(** A file system that enumerates [listing] for [pattern] and holds
    [files]. *)
Definition folder_world (pattern : string) (listing : list string)
  (files : list (string * string)) : World :=
  mkWorld (fun pat => if String.eqb pat pattern then listing else [])
          (fun file => lookup file files).

(** ** Notions the statements below are phrased with *)

(** The test of the loop of [build_project]. *)
Definition is_stage_file (file : string) : bool :=
  String.eqb (basename file) "stage.gs".

Definition is_ordinary_file (file : string) : bool :=
  negb (is_stage_file file).

(** The call the loop makes for one discovered file. *)
Definition unit_of {P : Parser} (w : World) (file : string) : M gm.Sprite :=
  sprite_from_file w file (if is_stage_file file then Some "Stage" else None).

(** A computation that returns [a]. *)
Definition returns {A} (m : M A) (a : A) : Prop := snd m = Ok a.

(** A computation that raises [e]. *)
Definition raises {A} (m : M A) (e : exn) : Prop := snd m = Raise e.

(** The value a computation returns, [d] if it raises. *)
Definition value_or {A} (d : A) (m : M A) : A :=
  match snd m with Ok a => a | Raise _ => d end.

(** The events of compiling [files] one after the other. *)
Definition unit_traces {P : Parser} (w : World) (files : list string) : trace :=
  concat (map (fun f => fst (unit_of w f)) files).

(** The last line of [build_project] for the units [l]:
    [gm.Project(l).export(out)]. *)
Definition assemble_export {G : Gobomatic} (w : World)
  (l : list gm.Sprite) (out : string) : M unit :=
  p <- new_Project l ;; export w p out.

(** Text on which characters and code points are the same. *)
Fixpoint is_ascii (s : string) : bool :=
  match s with
  | EmptyString => true
  | String c r => Nat.ltb (nat_of_ascii c) 128 && is_ascii r
  end.

(** What one iteration does to the locals once the file has compiled. *)
Definition step (st : locals) (file : string) (s : gm.Sprite) : locals :=
  if is_stage_file file then mkLocals (Some s) (sprites st)
  else mkLocals (stage st) (sprites st ++ [s]).

Definition assemble (st : locals) (fus : list (string * gm.Sprite)) : locals :=
  fold_left (fun st fu => step st (fst fu) (snd fu)) fus st.

(** What the specification asks of the passes: they annotate the unit they
    are given, keeping its name and the costumes it already has. *)
Class Annotating (P : Parser) : Prop := mkAnnotating {
  visit_name : forall sp t sp' fp,
    visit sp t = Ok (sp', fp) -> gm.name sp' = gm.name sp;
  visit_costumes : forall sp t sp' fp,
    visit sp t = Ok (sp', fp) ->
    exists cs, gm.costumes sp' = gm.costumes sp ++ cs;
  transform_name : forall sp vs ls fs t sp' bs,
    transform sp vs ls fs t = Ok (sp', bs) -> gm.name sp' = gm.name sp;
  transform_costumes : forall sp vs ls fs t sp' bs,
    transform sp vs ls fs t = Ok (sp', bs) ->
    exists cs, gm.costumes sp' = gm.costumes sp ++ cs
}.

(** ** Folders used as examples *)

Definition game_files : list (string * string) :=
  [("game/stage.gs", "costume backdrop;list score");
   ("game/player.gs", "costume cat;var x;add x");
   ("game/enemy.gs", "costume bat;def hit;add hit");
   ("game/hero.gs", "costume cat;add score");
   ("game/ghost.gs", "add speed");
   ("game/Stage.gs", "var lives");
   ("a/stage.gs", "costume day");
   ("b/stage.gs", "costume night")].

Definition game (listing : list string) : World :=
  folder_world "game/*.gs" listing game_files.


(** Scenario B of the specification: a unit refers to the undeclared
    speed, its siblings have no errors. *)
Definition scenario_B : World :=
  game ["game/ghost.gs"; "game/player.gs"; "game/stage.gs"].

Definition three_units : World :=
  game ["game/player.gs"; "game/stage.gs"; "game/enemy.gs"].

Definition three_units_reordered : World :=
  game ["game/enemy.gs"; "game/stage.gs"; "game/player.gs"].

(** Two files whose names differ in case only. *)
Definition same_names : World := game ["game/stage.gs"; "game/Stage.gs"].

(** The folder [*]: the pattern reaches into every directory. *)
Definition two_stages : World :=
  folder_world "*/*.gs" ["a/stage.gs"; "b/stage.gs"] game_files.

Definition no_stage : World := game ["game/player.gs"; "game/enemy.gs"].

(** The folder of three units on a file system that also holds a file of
    the empty name. *)
Definition three_units_and_more : World :=
  folder_world "game/*.gs"
    ["game/player.gs"; "game/stage.gs"; "game/enemy.gs"]
    (("", "") :: game_files).

(** ** Basic facts: the monad and the loop *)

Lemma exported_app (t1 t2 : trace) :
  exported (t1 ++ t2) = exported t1 ++ exported t2.
Proof.
  induction t1 as [|ev t1 IH]; simpl; [reflexivity|].
  destruct ev; simpl; rewrite IH; reflexivity.
Qed.

Lemma opened_app (t1 t2 : trace) :
  opened (t1 ++ t2) = opened t1 ++ opened t2.
Proof.
  induction t1 as [|ev t1 IH]; simpl; [reflexivity|].
  destruct ev; simpl; rewrite IH; reflexivity.
Qed.

Lemma bind_returns {A B} (m : M A) (k : A -> M B) (a : A) :
  returns m a -> bind m k = (fst m ++ fst (k a), snd (k a)).
Proof. unfold returns, bind. intros ->. reflexivity. Qed.

Lemma bind_raises {A B} (m : M A) (k : A -> M B) (e : exn) :
  raises m e -> bind m k = (fst m, Raise e).
Proof. unfold raises, bind. intros ->. reflexivity. Qed.

Lemma result_cases {A} (m : M A) :
  (exists a, returns m a) \/ (exists e, raises m e).
Proof.
  unfold returns, raises. destruct (snd m) as [a|e]; eauto.
Qed.

Lemma returns_raises {A} (m : M A) (a : A) (e : exn) :
  returns m a -> raises m e -> False.
Proof. unfold returns, raises. congruence. Qed.

Section Loop.

Context {P : Parser}.
Variable w : World.

Lemma loop_body_unit (st : locals) (file : string) :
  loop_body w st file = (s <- unit_of w file ;; ret (step st file s)).
Proof.
  unfold loop_body, unit_of, step, is_stage_file.
  destruct (String.eqb (basename file) "stage.gs"); reflexivity.
Qed.

(** Every file compiles: the loop ends with the locals assembled from the
    units, having performed the events of each unit in turn. *)
Lemma loop_returns (files : list string) :
  forall (us : list gm.Sprite) (st : locals),
    Forall2 (fun f u => returns (unit_of w f) u) files us ->
    for_each (loop_body w) st files
    = (unit_traces w files, Ok (assemble st (combine files us))).
Proof.
  induction files as [|f files IH]; intros us st HF; inversion HF; subst.
  - reflexivity.
  - simpl for_each. rewrite loop_body_unit.
    unfold bind at 1.
    rewrite (bind_returns _ _ _ H1). simpl.
    rewrite (IH _ (step st f y) H3). simpl.
    unfold unit_traces. simpl. rewrite app_nil_r. reflexivity.
Qed.

(** A file fails: the loop stops there with its exception. *)
Lemma loop_raises (pre : list string) :
  forall (us : list gm.Sprite) (st : locals) (f : string)
         (post : list string) (e : exn),
    Forall2 (fun f u => returns (unit_of w f) u) pre us ->
    raises (unit_of w f) e ->
    for_each (loop_body w) st (pre ++ f :: post)
    = (unit_traces w pre ++ fst (unit_of w f), Raise e).
Proof.
  induction pre as [|g pre IH]; intros us st f post e HF Hr;
    inversion HF; subst.
  - simpl. rewrite loop_body_unit. unfold bind at 1.
    rewrite (bind_raises _ _ _ Hr). reflexivity.
  - simpl app. simpl for_each. rewrite loop_body_unit.
    unfold bind at 1.
    rewrite (bind_returns _ _ _ H1). simpl.
    rewrite (IH _ (step st g y) f post e H3 Hr). simpl.
    unfold unit_traces. simpl. rewrite app_nil_r, app_assoc. reflexivity.
Qed.

(** One of the two happens. *)
Lemma loop_cases (files : list string) :
  (exists us, Forall2 (fun f u => returns (unit_of w f) u) files us)
  \/ (exists pre f post us e,
        files = pre ++ f :: post /\
        Forall2 (fun f u => returns (unit_of w f) u) pre us /\
        raises (unit_of w f) e).
Proof.
  induction files as [|f files IH].
  - left. exists []. constructor.
  - destruct (result_cases (unit_of w f)) as [[u Hu]|[e He]].
    + destruct IH as [[us Hus]|(pre & g & post & us & e & -> & Hpre & Hg)].
      * left. exists (u :: us). constructor; assumption.
      * right. exists (f :: pre), g, post, (u :: us), e.
        repeat split; [constructor; assumption | assumption].
    + right. exists [], f, files, [], e. repeat split; [constructor | assumption].
Qed.

End Loop.

(** ** Facts about [sprite_from_file] *)

Section Unit.

Context {P : Parser}.
Variable w : World.

(** A unit that is returned went through each stage of the pipeline, the
    second pass being run with the tables of the unit's own first pass. *)
Lemma sprite_from_file_inv (file : string) (name : option string)
  (s : gm.Sprite) :
  returns (sprite_from_file w file name) s ->
  exists text tree sp1 fp sp2 bs,
    read w file = Ok text /\
    parse text = Ok tree /\
    visit (gm.new_Sprite (py_or name (drop_last 3 (basename file))) [""]) tree
    = Ok (sp1, fp) /\
    transform sp1 (vars fp) (lsts fp) (funcs fp) tree = Ok (sp2, bs) /\
    s = gm.blocks_extend sp2 bs.
Proof.
  unfold returns, sprite_from_file, open_read, print, emit, lift, ret, bind.
  simpl.
  destruct (read w file) as [text|e] eqn:Hr; simpl; [|discriminate].
  destruct (parse text) as [tree|e] eqn:Hp; simpl; [|discriminate].
  destruct (visit _ tree) as [[sp1 fp]|e] eqn:Hv; simpl; [|discriminate].
  destruct (transform sp1 _ _ _ tree) as [[sp2 bs]|e] eqn:Ht; simpl;
    [|discriminate].
  intros [= <-].
  exists text, tree, sp1, fp, sp2, bs. repeat split; assumption.
Qed.

(** Compiling a file opens that file and no other. *)
Lemma sprite_from_file_opened (file : string) (name : option string) :
  opened (fst (sprite_from_file w file name)) = [file].
Proof.
  unfold sprite_from_file, open_read, print, emit, lift, ret, bind.
  simpl.
  destruct (read w file) as [text|e]; simpl; [|reflexivity].
  destruct (parse text) as [tree|e]; simpl; [|reflexivity].
  destruct (visit _ tree) as [[sp1 fp]|e]; simpl; [|reflexivity].
  destruct (transform sp1 _ _ _ tree) as [[sp2 bs]|e]; reflexivity.
Qed.

(** Compiling a file exports nothing. *)
Lemma sprite_from_file_exported (file : string) (name : option string) :
  exported (fst (sprite_from_file w file name)) = [].
Proof.
  unfold sprite_from_file, open_read, print, emit, lift, ret, bind.
  simpl.
  destruct (read w file) as [text|e]; simpl; [|reflexivity].
  destruct (parse text) as [tree|e]; simpl; [|reflexivity].
  destruct (visit _ tree) as [[sp1 fp]|e]; simpl; [|reflexivity].
  destruct (transform sp1 _ _ _ tree) as [[sp2 bs]|e]; reflexivity.
Qed.

Lemma unit_traces_exported (files : list string) :
  exported (unit_traces w files) = [].
Proof.
  unfold unit_traces. induction files as [|f files IH]; simpl; [reflexivity|].
  rewrite exported_app, IH. unfold unit_of.
  rewrite sprite_from_file_exported. reflexivity.
Qed.

Lemma unit_traces_opened (files : list string) :
  opened (unit_traces w files) = files.
Proof.
  unfold unit_traces. induction files as [|f files IH]; simpl; [reflexivity|].
  rewrite opened_app, IH. unfold unit_of.
  rewrite sprite_from_file_opened. reflexivity.
Qed.

End Unit.

(** Only the text of the file itself reaches its compilation. *)
Lemma sprite_from_file_ext {P : Parser} (w1 w2 : World) (file : string)
  (name : option string) :
  read w1 file = read w2 file ->
  sprite_from_file w1 file name = sprite_from_file w2 file name.
Proof.
  intros H. unfold sprite_from_file, open_read. rewrite H. reflexivity.
Qed.

(** ** Facts about the locals the loop assembles *)

Lemma assemble_app (st : locals) (a b : list (string * gm.Sprite)) :
  assemble st (a ++ b) = assemble (assemble st a) b.
Proof. unfold assemble. apply fold_left_app. Qed.

Lemma assemble_sprites (fus : list (string * gm.Sprite)) :
  forall st,
    sprites (assemble st fus)
    = sprites st
      ++ map snd (filter (fun fu => is_ordinary_file (fst fu)) fus).
Proof.
  induction fus as [|[f u] fus IH]; intros st; simpl.
  - rewrite app_nil_r. reflexivity.
  - change (sprites (assemble (step st f u) fus) = 
            sprites st ++ map snd
              (if is_ordinary_file f
               then (f, u) :: filter (fun fu => is_ordinary_file (fst fu)) fus
               else filter (fun fu => is_ordinary_file (fst fu)) fus)).
    rewrite IH. unfold step, is_ordinary_file.
    destruct (is_stage_file f); simpl; [reflexivity|].
    rewrite <- app_assoc. reflexivity.
Qed.

Lemma assemble_no_stage (fus : list (string * gm.Sprite)) :
  forall st,
    Forall (fun fu => is_stage_file (fst fu) = false) fus ->
    stage (assemble st fus) = stage st.
Proof.
  induction fus as [|[f u] fus IH]; intros st HF; [reflexivity|].
  inversion HF as [|? ? Hf HF']; subst. simpl in Hf.
  change (stage (assemble (step st f u) fus) = stage st).
  rewrite (IH _ HF'). unfold step. rewrite Hf. reflexivity.
Qed.

(** The last file named stage.gs is the one that stays bound. *)
Lemma assemble_last_stage (st : locals) (a b : list (string * gm.Sprite))
  (f : string) (u : gm.Sprite) :
  is_stage_file f = true ->
  Forall (fun fu => is_stage_file (fst fu) = false) b ->
  stage (assemble st (a ++ (f, u) :: b)) = Some u.
Proof.
  intros Hf Hb. rewrite assemble_app.
  change (stage (assemble (step (assemble st a) f u) b) = Some u).
  rewrite (assemble_no_stage _ _ Hb). unfold step. rewrite Hf. reflexivity.
Qed.

Lemma no_stage_Forall (files : list string) :
  existsb is_stage_file files = false ->
  Forall (fun f => is_stage_file f = false) files.
Proof.
  intros Hex. apply Forall_forall. intros x Hx.
  destruct (is_stage_file x) eqn:Hsx; [|reflexivity].
  assert (existsb is_stage_file files = true)
    by (apply existsb_exists; eauto).
  congruence.
Qed.

(** A listing with a stage.gs has a last one. *)
Lemma last_stage_split (files : list string) :
  (exists f, In f files /\ is_stage_file f = true) ->
  exists pre sf post,
    files = pre ++ sf :: post /\
    is_stage_file sf = true /\
    Forall (fun f => is_stage_file f = false) post.
Proof.
  induction files as [|g files IH]; intros (f & Hin & Hf).
  - destruct Hin.
  - destruct (existsb is_stage_file files) eqn:Hex.
    + apply existsb_exists in Hex. destruct (IH Hex) as (pre & sf & post & -> & Hs & Hp).
      exists (g :: pre), sf, post. repeat split; assumption.
    + pose proof (no_stage_Forall files Hex) as Hall.
      destruct Hin as [->|Hin].
      * exists [], f, files. repeat split; assumption.
      * rewrite Forall_forall in Hall. rewrite (Hall _ Hin) in Hf. discriminate.
Qed.

Lemma combine_split {A B} (R : A -> B -> Prop) (l1 : list A) :
  forall (x : A) (l2 : list A) (ys : list B),
    Forall2 R (l1 ++ x :: l2) ys ->
    exists ys1 y ys2,
      ys = ys1 ++ y :: ys2 /\
      Forall2 R l1 ys1 /\ R x y /\ Forall2 R l2 ys2 /\
      combine (l1 ++ x :: l2) ys = combine l1 ys1 ++ (x, y) :: combine l2 ys2.
Proof.
  induction l1 as [|a l1 IH]; intros x l2 ys HF; inversion HF; subst.
  - exists [], y, l'. repeat split; try assumption. constructor.
  - destruct (IH _ _ _ H3) as (ys1 & y' & ys2 & -> & H1' & Hx & H2' & Hc).
    exists (y :: ys1), y', ys2. repeat split; try assumption.
    + constructor; assumption.
    + simpl. rewrite Hc. reflexivity.
Qed.

Lemma combine_fst_Forall {A B} (R : A -> B -> Prop) (Q : A -> Prop)
  (l : list A) :
  forall ys, Forall2 R l ys -> Forall Q l ->
             Forall (fun p => Q (fst p)) (combine l ys).
Proof.
  induction l as [|a l IH]; intros ys HF HQ; inversion HF; subst; simpl.
  - constructor.
  - inversion HQ; subst. constructor; [assumption|]. apply IH; assumption.
Qed.

(** The ordinary units are the compilations, without a name, of the
    ordinary files, in the order of the listing. *)
Lemma ordinary_units {P : Parser} (w : World) (files : list string) :
  forall us,
    Forall2 (fun f u => returns (unit_of w f) u) files us ->
    Forall2 (fun f u => returns (sprite_from_file w f None) u)
      (filter is_ordinary_file files)
      (map snd (filter (fun fu => is_ordinary_file (fst fu))
                       (combine files us))).
Proof.
  induction files as [|f files IH]; intros us HF; inversion HF; subst; simpl.
  - constructor.
  - unfold unit_of in H1. specialize (IH _ H3).
    unfold is_ordinary_file in *.
    destruct (is_stage_file f); simpl.
    + exact IH.
    + constructor; [assumption|exact IH].
Qed.

(** ** Facts about [build_project] *)

Section Build.

Context {P : Parser} {G : Gobomatic}.
Variable w : World.

(** The last line: the constructor raises, or the exporter is entered with
    the project that holds the units and the outcome is the exporter's. *)
Lemma assemble_export_eq (l : list gm.Sprite) (out : string) :
  assemble_export w l out
  = match Project_init l with
    | Ok _ => ([EvExport (gm.mkProject l) out],
               Project_export w (gm.mkProject l) out)
    | Raise e => ([], Raise e)
    end.
Proof.
  unfold assemble_export, new_Project, export, emit, lift, ret, bind. simpl.
  destruct (Project_init l); reflexivity.
Qed.

Lemma assemble_export_opened (l : list gm.Sprite) (out : string) :
  opened (fst (assemble_export w l out)) = [].
Proof.
  rewrite assemble_export_eq. destruct (Project_init l); reflexivity.
Qed.

Lemma assemble_export_exported (l : list gm.Sprite) (out : string) :
  forall p o,
    In (p, o) (exported (fst (assemble_export w l out))) ->
    Project_init l = Ok tt /\ p = gm.mkProject l /\ o = out /\
    fst (assemble_export w l out) = [EvExport (gm.mkProject l) out] /\
    snd (assemble_export w l out) = Project_export w (gm.mkProject l) out.
Proof.
  intros p o. rewrite assemble_export_eq.
  destruct (Project_init l) as [[]|e]; simpl; [|intros []].
  intros [[= <- <-]|[]]. repeat split.
Qed.

Lemma assemble_export_accepted (l : list gm.Sprite) (out : string) :
  Project_init l = Ok tt ->
  assemble_export w l out
  = ([EvExport (gm.mkProject l) out], Project_export w (gm.mkProject l) out).
Proof. intros H. rewrite assemble_export_eq, H. reflexivity. Qed.

(** Every unit compiles: the outcome hangs on whether [stage] was bound. *)
Lemma build_project_returns (folder out : string) (us : list gm.Sprite) :
  let files := glob w (folder ++ "/*.gs")%string in
  let st := assemble (mkLocals None []) (combine files us) in
  Forall2 (fun f u => returns (unit_of w f) u) files us ->
  build_project w folder out
  = match stage st with
    | Some s =>
        (unit_traces w files ++ fst (assemble_export w (s :: sprites st) out),
         snd (assemble_export w (s :: sprites st) out))
    | None => (unit_traces w files, Raise (UnboundLocalError "stage"))
    end.
Proof.
  intros files st HF. unfold build_project. fold files.
  rewrite (loop_returns w files us _ HF). fold st.
  unfold bind at 1. simpl. unfold load_stage.
  destruct (stage st) as [s|].
  - unfold bind at 1. simpl. reflexivity.
  - unfold bind; simpl. rewrite app_nil_r. reflexivity.
Qed.

(** A unit fails: its exception is the outcome of the build. *)
Lemma build_project_raises (folder out : string) (pre post : list string)
  (f : string) (us : list gm.Sprite) (e : exn) :
  glob w (folder ++ "/*.gs")%string = pre ++ f :: post ->
  Forall2 (fun f u => returns (unit_of w f) u) pre us ->
  raises (unit_of w f) e ->
  build_project w folder out = (unit_traces w pre ++ fst (unit_of w f), Raise e).
Proof.
  intros Hg HF Hr. unfold build_project. rewrite Hg.
  rewrite (loop_raises w pre us _ f post e HF Hr). reflexivity.
Qed.

(** Every unit compiles and [sf] is the last stage.gs of the listing: the
    build ends with [gm.Project(...).export(out)] on the compilation of
    [sf] followed by the ordinary units. *)
Lemma build_project_shape_at (folder out : string) (us : list gm.Sprite)
  (pre post : list string) (sf : string) :
  let files := glob w (folder ++ "/*.gs")%string in
  files = pre ++ sf :: post ->
  is_stage_file sf = true ->
  Forall (fun f => is_stage_file f = false) post ->
  Forall2 (fun f u => returns (unit_of w f) u) files us ->
  exists s rest,
    returns (sprite_from_file w sf (Some "Stage")) s /\
    Forall2 (fun f u => returns (sprite_from_file w f None) u)
            (filter is_ordinary_file files) rest /\
    build_project w folder out
    = (unit_traces w files ++ fst (assemble_export w (s :: rest) out),
       snd (assemble_export w (s :: rest) out)).
Proof.
  intros files Hfiles Hsf Hpost HF.
  pose proof (build_project_returns folder out us HF) as Hb.
  pose proof (ordinary_units w files us HF) as Hord.
  fold files in Hb.
  rewrite assemble_sprites in Hb. simpl in Hb.
  revert HF Hb Hord. rewrite Hfiles. intros HF Hb Hord.
  destruct (combine_split _ _ _ _ _ HF)
    as (us1 & u & us2 & -> & H1 & Hu & H2 & Hc).
  rewrite Hc in Hb.
  rewrite (assemble_last_stage _ _ _ sf u Hsf) in Hb
    by (apply (combine_fst_Forall _ _ _ _ H2 Hpost)).
  exists u,
    (map snd (filter (fun fu => is_ordinary_file (fst fu))
                     (combine (pre ++ sf :: post) (us1 ++ u :: us2)))).
  repeat split; try assumption.
  - unfold unit_of in Hu. rewrite Hsf in Hu. exact Hu.
  - rewrite Hc. exact Hb.
Qed.

Lemma build_project_shape (folder out : string) (us : list gm.Sprite) :
  let files := glob w (folder ++ "/*.gs")%string in
  (exists f, In f files /\ is_stage_file f = true) ->
  Forall2 (fun f u => returns (unit_of w f) u) files us ->
  exists pre sf post s rest,
    files = pre ++ sf :: post /\
    is_stage_file sf = true /\
    Forall (fun f => is_stage_file f = false) post /\
    returns (sprite_from_file w sf (Some "Stage")) s /\
    Forall2 (fun f u => returns (sprite_from_file w f None) u)
            (filter is_ordinary_file files) rest /\
    build_project w folder out
    = (unit_traces w files ++ fst (assemble_export w (s :: rest) out),
       snd (assemble_export w (s :: rest) out)).
Proof.
  intros files Hex HF.
  destruct (last_stage_split files Hex) as (pre & sf & post & Hfiles & Hsf & Hpost).
  destruct (build_project_shape_at folder out us pre post sf Hfiles Hsf Hpost HF)
    as (s & rest & Hs & Hrest & Hb).
  exists pre, sf, post, s, rest. repeat split; assumption.
Qed.

(** Whatever reached the exporter did so last, after every unit compiled. *)
Lemma build_project_exported (folder out : string) :
  let files := glob w (folder ++ "/*.gs")%string in
  forall p o,
    In (p, o) (exported (fst (build_project w folder out))) ->
    exists us,
      Forall2 (fun f u => returns (unit_of w f) u) files us /\
      exists f, In f files /\ is_stage_file f = true.
Proof.
  intros files p o Hin.
  destruct (loop_cases w files)
    as [[us Hus]|(pre & f & post & us & e & Hfiles & Hpre & Hf)].
  - exists us. split; [assumption|].
    destruct (existsb is_stage_file files) eqn:Hex.
    + apply existsb_exists in Hex. exact Hex.
    + exfalso.
      pose proof (no_stage_Forall files Hex) as Hall.
      rewrite (build_project_returns folder out us Hus) in Hin.
      fold files in Hin.
      rewrite (assemble_no_stage _ _ (combine_fst_Forall _ _ _ _ Hus Hall))
        in Hin.
      simpl in Hin. rewrite unit_traces_exported in Hin. destruct Hin.
  - exfalso.
    rewrite (build_project_raises folder out pre post f us e Hfiles Hpre Hf)
      in Hin.
    simpl in Hin. rewrite exported_app, unit_traces_exported in Hin.
    unfold unit_of in Hin. rewrite sprite_from_file_exported in Hin.
    destruct Hin.
Qed.

(** A build that ends with the last line on [l] and reached the exporter:
    what was exported, the events and the outcome. *)
Lemma build_project_reached (folder out : string) (l : list gm.Sprite)
  (t : trace) :
  build_project w folder out
  = (t ++ fst (assemble_export w l out), snd (assemble_export w l out)) ->
  exported t = [] ->
  forall p o,
    In (p, o) (exported (fst (build_project w folder out))) ->
    Project_init l = Ok tt /\ p = gm.mkProject l /\ o = out /\
    build_project w folder out
    = (t ++ [EvExport (gm.mkProject l) out],
       Project_export w (gm.mkProject l) out).
Proof.
  intros Hb Ht p o Hin. rewrite Hb in Hin. simpl in Hin.
  rewrite exported_app, Ht in Hin. simpl in Hin.
  destruct (assemble_export_exported l out p o Hin)
    as (Hi & Hp & Ho & Hf & Hs).
  repeat split; try assumption.
  rewrite Hb, Hf, Hs. reflexivity.
Qed.

End Build.

(** ** Further facts about lists, strings and the build *)

Lemma Forall2_In_l {A B} (R : A -> B -> Prop) (l : list A) :
  forall ys x, Forall2 R l ys -> In x l -> exists y, In (x, y) (combine l ys) /\ R x y.
Proof.
  induction l as [|a l IH]; intros ys x HF Hin; [destruct Hin|].
  inversion HF; subst. destruct Hin as [->|Hin].
  - exists y. split; [left; reflexivity | assumption].
  - destruct (IH _ _ H3 Hin) as (y' & Hy & HR).
    exists y'. split; [right; assumption | assumption].
Qed.

Lemma filter_Permutation {A} (p : A -> bool) (l1 l2 : list A) :
  Permutation l1 l2 -> Permutation (filter p l1) (filter p l2).
Proof.
  induction 1 as [|x l1 l2 _ IH|x y l|l1 l2 l3 _ IH1 _ IH2]; simpl.
  - constructor.
  - destruct (p x); [constructor|]; exact IH.
  - destruct (p x), (p y); try apply Permutation_refl. constructor.
  - exact (Permutation_trans IH1 IH2).
Qed.

Lemma for_each_ext {S X} (body1 body2 : S -> X -> M S) (xs : list X) :
  forall st,
    (forall x st, In x xs -> body1 st x = body2 st x) ->
    for_each body1 st xs = for_each body2 st xs.
Proof.
  induction xs as [|x xs IH]; intros st Hb; [reflexivity|].
  simpl. rewrite (Hb x st (or_introl eq_refl)). unfold bind.
  destruct (snd (body2 st x)) as [st'|e]; [|reflexivity].
  rewrite (IH st'); [reflexivity|].
  intros y st'' Hy. apply Hb. right. exact Hy.
Qed.

Lemma Forall2_total {A B} (R : A -> B -> Prop) (l : list A) :
  (forall x, In x l -> exists y, R x y) -> exists ys, Forall2 R l ys.
Proof.
  induction l as [|a l IH]; intros H.
  - exists []. constructor.
  - destruct (H a (or_introl eq_refl)) as [y Hy].
    destruct IH as [ys Hys]; [intros x Hx; apply H; right; exact Hx|].
    exists (y :: ys). constructor; assumption.
Qed.

Lemma Forall2_returns_map {A B} (m : A -> M B) (d : B) (l : list A) :
  forall ys, Forall2 (fun x y => returns (m x) y) l ys ->
             ys = map (fun x => value_or d (m x)) l.
Proof.
  induction l as [|a l IH]; intros ys HF; inversion HF; subst; simpl.
  - reflexivity.
  - f_equal; [|apply IH; assumption].
    unfold value_or. unfold returns in H1. rewrite H1. reflexivity.
Qed.

Lemma Forall2_impl_l {A B} (R R' : A -> B -> Prop) (l : list A) :
  forall ys, (forall x y, In x l -> R x y -> R' x y) ->
             Forall2 R l ys -> Forall2 R' l ys.
Proof.
  induction l as [|a l IH]; intros ys Himp HF; inversion HF; subst;
    constructor.
  - apply Himp; [left; reflexivity | assumption].
  - apply IH; [|assumption]. intros x y' Hx. apply Himp. right. exact Hx.
Qed.

Lemma Forall2_functional {A B} (R R' : A -> B -> Prop) (l : list A) :
  forall ys ys',
    (forall x y y', In x l -> R x y -> R' x y' -> y = y') ->
    Forall2 R l ys -> Forall2 R' l ys' -> ys = ys'.
Proof.
  induction l as [|a l IH]; intros ys ys' Hf H1 H2;
    inversion H1; inversion H2; subst; [reflexivity|].
  f_equal.
  - apply (Hf a); [left; reflexivity | assumption | assumption].
  - apply IH; try assumption.
    intros x z z' Hx. apply Hf. right. exact Hx.
Qed.

Lemma unit_of_ext {P : Parser} (w1 w2 : World) (f : string) :
  read w1 f = read w2 f -> unit_of w1 f = unit_of w2 f.
Proof. intros H. unfold unit_of. apply sprite_from_file_ext. exact H. Qed.

(** The files a build opens are the first files of the enumeration, in its
    order; all of them when every unit compiles. *)
Lemma build_project_opened {P : Parser} {G : Gobomatic} (w : World)
  (folder out : string) :
  let files := glob w (folder ++ "/*.gs")%string in
  (exists post, files = opened (fst (build_project w folder out)) ++ post) /\
  (forall us, Forall2 (fun f u => returns (unit_of w f) u) files us ->
              opened (fst (build_project w folder out)) = files).
Proof.
  intros files.
  assert (Hall : forall us,
             Forall2 (fun f u => returns (unit_of w f) u) files us ->
             opened (fst (build_project w folder out)) = files).
  { intros us Hus.
    rewrite (build_project_returns w folder out us Hus). fold files.
    destruct (stage _); simpl.
    - rewrite opened_app, unit_traces_opened, assemble_export_opened.
      apply app_nil_r.
    - apply unit_traces_opened. }
  split; [|exact Hall].
  destruct (loop_cases w files)
    as [[us Hus]|(pre & g & post & us & e' & Hfiles & Hpre & Hg)].
  - rewrite (Hall us Hus). exists []. symmetry. apply app_nil_r.
  - rewrite (build_project_raises w folder out pre post g us e' Hfiles Hpre Hg).
    simpl. rewrite opened_app, unit_traces_opened.
    unfold unit_of. rewrite sprite_from_file_opened.
    exists post. rewrite Hfiles, <- app_assoc. reflexivity.
Qed.

Lemma three_units_permuted :
  Permutation (glob three_units "game/*.gs")
              (glob three_units_reordered "game/*.gs").
Proof.
  simpl.
  apply (Permutation_trans
           (l' := ["game/enemy.gs"; "game/player.gs"; "game/stage.gs"])).
  - apply Permutation_sym.
    apply (Permutation_cons_app ["game/player.gs"; "game/stage.gs"] []).
    rewrite app_nil_r. apply Permutation_refl.
  - constructor. constructor.
Qed.




Lemma has_sep_app (s t : string) :
  has_sep (s ++ t)%string = has_sep s || has_sep t.
Proof.
  induction s as [|c s IH]; simpl; [reflexivity|].
  rewrite IH. apply orb_assoc.
Qed.

(** [basename(folder + "/" + b) == b] when [b] has no separator. *)
Lemma basename_join (folder b : string) :
  has_sep b = false ->
  basename (folder ++ String sep b)%string = b.
Proof.
  intros Hb. induction folder as [|c folder IH]; simpl.
  - rewrite Hb. reflexivity.
  - rewrite has_sep_app. simpl. rewrite orb_true_r. exact IH.
Qed.

(** A unit that is returned bears the name its shell was created with. *)
Lemma sprite_from_file_name {P : Parser} {HA : Annotating P} (w : World)
  (file : string) (name : option string) (s : gm.Sprite) :
  returns (sprite_from_file w file name) s ->
  gm.name s = py_or name (drop_last 3 (basename file)).
Proof.
  intros Hs.
  destruct (sprite_from_file_inv w file name s Hs)
    as (text & tree & sp1 & fp & sp2 & bs & _ & _ & Hv & Ht & ->).
  simpl. rewrite (transform_name _ _ _ _ _ _ _ Ht).
  rewrite (visit_name _ _ _ _ Hv). reflexivity.
Qed.

(** The passes modelled above annotate. *)
Lemma visit_nodes_annotates (tree : list SpecParser.node) :
  forall sp fp sp' fp',
    SpecParser.visit_nodes sp fp tree = Ok (sp', fp') ->
    gm.name sp' = gm.name sp /\
    exists cs, gm.costumes sp' = gm.costumes sp ++ cs.
Proof.
  induction tree as [|n tree IH]; intros sp fp sp' fp' H; simpl in H.
  - injection H as <- <-. split; [reflexivity|].
    exists []. symmetry. apply app_nil_r.
  - destruct n as [c|v|l|f|r].
    + destruct (SpecParser.mem c (gm.costumes sp)); [discriminate|].
      destruct (IH _ _ _ _ H) as (Hn & cs & Hc). simpl in Hn, Hc.
      split; [exact Hn|]. exists (c :: cs). rewrite Hc, <- app_assoc.
      reflexivity.
    + destruct (SpecParser.mem v (SpecParser.declared fp)); [discriminate|].
      exact (IH _ _ _ _ H).
    + destruct (SpecParser.mem l (SpecParser.declared fp)); [discriminate|].
      exact (IH _ _ _ _ H).
    + destruct (SpecParser.mem f (SpecParser.declared fp)); [discriminate|].
      exact (IH _ _ _ _ H).
    + exact (IH _ _ _ _ H).
Qed.

#[global] Instance spec_parser_annotating : Annotating SpecParser.parser.
Proof.
  constructor.
  - intros sp t sp' fp H. exact (proj1 (visit_nodes_annotates _ _ _ _ _ H)).
  - intros sp t sp' fp H. exact (proj2 (visit_nodes_annotates _ _ _ _ _ H)).
  - intros sp vs ls fs t sp' bs H. simpl in H. unfold SpecParser.transform in H.
    destruct (SpecParser.transform_nodes [] vs ls fs t); [|discriminate].
    injection H as <- _. reflexivity.
  - intros sp vs ls fs t sp' bs H. simpl in H. unfold SpecParser.transform in H.
    destruct (SpecParser.transform_nodes [] vs ls fs t); [|discriminate].
    injection H as <- _. exists []. symmetry. apply app_nil_r.
Qed.


(** ** The claims *)




(** C2.  In a folder with a file named stage.gs, once every unit compiles
    [build_project] goes on to [gm.Project(...).export(out)] on the stage
    unit followed by the ordinary units, and this project is the one the
    exporter is entered with when the constructor accepts it.  Any project
    that reaches the exporter has the stage unit (the compilation, under
    the name Stage, of the last file named stage.gs) as its first element,
    followed by the compilations of the ordinary files in the order of
    their discovery; this for every enumeration the file system may
    give. *)
Theorem build_project_stage_first {P : Parser} {G : Gobomatic} (w : World)
  (folder out : string) :
  let files := glob w (folder ++ "/*.gs")%string in
  (exists f, In f files /\ is_stage_file f = true) ->
  (forall us,
      Forall2 (fun f u => returns (unit_of w f) u) files us ->
      exists s rest,
        build_project w folder out
        = (unit_traces w files ++ fst (assemble_export w (s :: rest) out),
           snd (assemble_export w (s :: rest) out)) /\
        (Project_init (s :: rest) = Ok tt ->
         exported (fst (build_project w folder out))
         = [(gm.mkProject (s :: rest), out)])) /\
  (forall p o,
      In (p, o) (exported (fst (build_project w folder out))) ->
      exists pre sf post s rest,
        files = pre ++ sf :: post /\
        is_stage_file sf = true /\
        Forall (fun f => is_stage_file f = false) post /\
        returns (sprite_from_file w sf (Some "Stage")) s /\
        Forall2 (fun f u => returns (sprite_from_file w f None) u)
                (filter is_ordinary_file files) rest /\
        p = gm.mkProject (s :: rest) /\ o = out).
Proof.
  intros files Hex. split.
  - intros us HF.
    destruct (build_project_shape w folder out us Hex HF)
      as (pre & sf & post & s & rest & _ & _ & _ & _ & _ & Hb).
    exists s, rest. split; [exact Hb|].
    intros Hinit. rewrite Hb. simpl.
    rewrite exported_app, unit_traces_exported.
    rewrite (assemble_export_accepted w _ out Hinit). reflexivity.
  - intros p o Hin.
    destruct (build_project_exported w folder out p o Hin) as (us & HF & _).
    destruct (build_project_shape w folder out us Hex HF)
      as (pre & sf & post & s & rest & Hfiles & Hsf & Hpost & Hs & Hrest & Hb).
    destruct (build_project_reached w folder out _ _ Hb
                (unit_traces_exported w files) p o Hin)
      as (_ & Hp & Ho & _).
    exists pre, sf, post, s, rest. repeat split; assumption.
Qed.

(** The folder of three units, stage.gs enumerated second. *)
Lemma build_project_stage_first_witness :
  (exists f, In f (glob three_units "game/*.gs") /\ is_stage_file f = true) /\
  exists pre sf post s rest,
    glob three_units "game/*.gs" = pre ++ sf :: post /\
    is_stage_file sf = true /\
    Forall (fun f => is_stage_file f = false) post /\
    returns (sprite_from_file three_units sf (Some "Stage")) s /\
    Forall2 (fun f u => returns (sprite_from_file three_units f None) u)
            (filter is_ordinary_file (glob three_units "game/*.gs")) rest /\
    gm.mkProject
      [gm.mkSprite "Stage" [""; "backdrop"] [] ["score"] [];
       gm.mkSprite "player" [""; "cat"] ["x"] [] [Blk "add" ["x"] []];
       gm.mkSprite "enemy" [""; "bat"] [] [] [Blk "add" ["hit"] []]]
    = gm.mkProject (s :: rest) /\
    "out.sb3" = "out.sb3".
Proof.
  assert (Hex : exists f, In f (glob three_units "game/*.gs") /\
                          is_stage_file f = true).
  { exists "game/stage.gs". split; [right; left; reflexivity | reflexivity]. }
  split; [exact Hex|].
  apply (proj2 (build_project_stage_first three_units "game" "out.sb3" Hex)).
  left. reflexivity.
Defined.

(** C3 (as stated, refuted).  In scenario B the first unit discovered
    refers to the undeclared speed.  Its sibling player.gs compiles on its
    own, yet the build never opens it: the build stops at the first
    failure instead of compiling every sibling unit. *)
Lemma scenario_B_stops_at_first_failure :
  raises (build_project scenario_B "game" "out.sb3")
         (UnresolvedReferenceError "speed") /\
  (exists u, returns (unit_of scenario_B "game/player.gs") u) /\
  In "game/player.gs" (glob scenario_B "game/*.gs") /\
  ~ In "game/player.gs" (opened (fst (build_project scenario_B "game" "out.sb3"))).
Proof.
  split; [reflexivity|]. split; [eexists; reflexivity|].
  split; [right; left; reflexivity|].
  vm_compute. intros [H|[]]. discriminate H.
Qed.

(** C3 (amended).  When the compilation of a unit fails, [build_project]
    stops there: the exception of the first failing unit, in discovery
    order, is the outcome of the build, the files discovered after it are
    not opened, and nothing is exported. *)
Theorem build_project_fails_fast {P : Parser} {G : Gobomatic} (w : World)
  (folder out : string) (pre post : list string) (f : string)
  (us : list gm.Sprite) (e : exn) :
  glob w (folder ++ "/*.gs")%string = pre ++ f :: post ->
  Forall2 (fun f u => returns (unit_of w f) u) pre us ->
  raises (unit_of w f) e ->
  raises (build_project w folder out) e /\
  opened (fst (build_project w folder out)) = pre ++ [f] /\
  exported (fst (build_project w folder out)) = [].
Proof.
  intros Hfiles Hpre Hf.
  rewrite (build_project_raises w folder out pre post f us e Hfiles Hpre Hf).
  simpl. rewrite opened_app, exported_app.
  rewrite unit_traces_opened, unit_traces_exported.
  unfold unit_of. rewrite sprite_from_file_opened, sprite_from_file_exported.
  repeat split.
Qed.

(** Scenario B: only ghost.gs is opened. *)
Lemma build_project_fails_fast_witness :
  raises (build_project scenario_B "game" "out.sb3")
         (UnresolvedReferenceError "speed") /\
  opened (fst (build_project scenario_B "game" "out.sb3")) = ["game/ghost.gs"] /\
  exported (fst (build_project scenario_B "game" "out.sb3")) = [].
Proof.
  apply (build_project_fails_fast scenario_B "game" "out.sb3"
           [] ["game/player.gs"; "game/stage.gs"] "game/ghost.gs" []
           (UnresolvedReferenceError "speed")).
  - reflexivity.
  - constructor.
  - reflexivity.
Defined.

(** C4 (as stated, refuted).  stage.gs and Stage.gs both give a unit named
    Stage.  [build_project] checks nothing: the exporter is entered with a
    project that holds the two, and the exception the build ends with is
    the exporter's, not a DuplicateSpriteNameError. *)
Lemma same_names_exported :
  (exists s1 s2,
      exported (fst (build_project same_names "game" "out.sb3"))
      = [(gm.mkProject [s1; s2], "out.sb3")] /\
      gm.name s1 = "Stage" /\ gm.name s2 = "Stage") /\
  raises (build_project same_names "game" "out.sb3") (OSError "") /\
  ~ raises (build_project same_names "game" "out.sb3")
           (DuplicateSpriteNameError "Stage").
Proof.
  split.
  { do 2 eexists. split; [reflexivity|]. split; reflexivity. }
  split; [reflexivity|]. unfold raises. vm_compute. discriminate.
Qed.

(** C4 (amended).  Project assembly in [build_project] does not validate
    the names of the units and raises no DuplicateSpriteNameError of its
    own: an exception of the build is the exception of a unit's
    compilation, the error of the unbound [stage], or one that
    [gm.Project(...)] or its [export] raised; and when every unit compiles
    and there is a stage.gs, every ordinary unit is among the units handed
    to [gm.Project], whatever the names. *)
Theorem build_project_checks_no_names {P : Parser} {G : Gobomatic}
  (w : World) (folder out : string) :
  let files := glob w (folder ++ "/*.gs")%string in
  (forall e,
      raises (build_project w folder out) e ->
      e = UnboundLocalError "stage" \/
      (exists f, In f files /\ raises (unit_of w f) e) \/
      (exists l, Project_init l = Raise e) \/
      (exists p, Project_export w p out = Raise e)) /\
  (forall us,
      (exists f, In f files /\ is_stage_file f = true) ->
      Forall2 (fun f u => returns (unit_of w f) u) files us ->
      exists l,
        build_project w folder out
        = (unit_traces w files ++ fst (assemble_export w l out),
           snd (assemble_export w l out)) /\
        forall f u, In (f, u) (combine files us) ->
                    is_stage_file f = false -> In u l).
Proof.
  intros files.
  assert (Hlast : forall l e,
             raises (assemble_export w l out) e ->
             (exists l, Project_init l = Raise e) \/
             (exists p, Project_export w p out = Raise e)).
  { intros l e. rewrite assemble_export_eq. unfold raises.
    destruct (Project_init l) as [[]|e'] eqn:Hi; simpl.
    - intros He. right. exists (gm.mkProject l). exact He.
    - intros [= <-]. left. exists l. exact Hi. }
  split.
  - intros e He.
    destruct (loop_cases w files)
      as [[us Hus]|(pre & g & post & us & e' & Hfiles & Hpre & Hg)].
    + rewrite (build_project_returns w folder out us Hus) in He.
      fold files in He.
      destruct (stage _).
      * right. right. exact (Hlast _ e He).
      * left. unfold raises in He. simpl in He. congruence.
    + rewrite (build_project_raises w folder out pre post g us e' Hfiles Hpre Hg)
        in He.
      unfold raises in He. simpl in He. right. left. exists g. split.
      * rewrite Hfiles. apply in_elt.
      * congruence.
  - intros us Hex Hus.
    destruct (build_project_shape w folder out us Hex Hus)
      as (pre & sf & post & s & rest & _ & _ & _ & _ & Hrest & Hb).
    exists (s :: rest). split; [exact Hb|].
    intros f u Hin Hf. right.
    pose proof (ordinary_units w files us Hus) as Hord.
    rewrite (Forall2_functional _ _ _ _ _
               (fun x y y' _ (Hy : returns _ y) (Hy' : returns _ y') =>
                  match eq_trans (eq_sym Hy) Hy' in _ = r
                        return match r with Ok z => y = z | Raise _ => True end
                  with eq_refl => eq_refl end)
               Hrest Hord).
    apply in_map_iff. exists (f, u). split; [reflexivity|].
    apply filter_In. split; [assumption|].
    unfold is_ordinary_file. simpl. rewrite Hf. reflexivity.
Qed.

(** stage.gs and Stage.gs: two units named Stage handed to gm.Project. *)
Lemma build_project_checks_no_names_witness :
  (exists f, In f (glob same_names "game/*.gs") /\ is_stage_file f = true) /\
  exists l,
    build_project same_names "game" "out.sb3"
    = (unit_traces same_names (glob same_names "game/*.gs")
         ++ fst (assemble_export same_names l "out.sb3"),
       snd (assemble_export same_names l "out.sb3")) /\
    forall f u,
      In (f, u) (combine (glob same_names "game/*.gs")
                   [gm.mkSprite "Stage" [""; "backdrop"] [] ["score"] [];
                    gm.mkSprite "Stage" [""] ["lives"] [] []]) ->
      is_stage_file f = false -> In u l.
Proof.
  assert (Hex : exists f, In f (glob same_names "game/*.gs") /\
                          is_stage_file f = true).
  { exists "game/stage.gs". split; [left; reflexivity | reflexivity]. }
  split; [exact Hex|].
  apply (proj2 (build_project_checks_no_names same_names "game" "out.sb3"));
    [exact Hex|].
  repeat constructor.
Defined.

(** C5 (as stated, refuted).  Two enumerations of the same unchanged
    folder: the files are the same and hold the same text, but the units
    are processed in different orders and the projects the exporter is
    entered with differ.  Discovery imposes no order of its own. *)
Lemma enumeration_order_shows :
  Permutation (glob three_units "game/*.gs")
              (glob three_units_reordered "game/*.gs") /\
  (forall f, read three_units f = read three_units_reordered f) /\
  opened (fst (build_project three_units "game" "out.sb3"))
  <> opened (fst (build_project three_units_reordered "game" "out.sb3")) /\
  (exists p1 p2,
      exported (fst (build_project three_units "game" "out.sb3"))
      = [(p1, "out.sb3")] /\
      exported (fst (build_project three_units_reordered "game" "out.sb3"))
      = [(p2, "out.sb3")] /\
      p1 <> p2).
Proof.
  split; [exact three_units_permuted|].
  split; [reflexivity|].
  split; [vm_compute; intros H; discriminate H|].
  do 2 eexists. split; [reflexivity|]. split; [reflexivity|].
  intros H; discriminate H.
Qed.

(** C5 (amended).  Discovery imposes no order of its own: the files a
    build opens are the first of the file system's enumeration, in its
    order, and the ordinary units of a project that reaches the exporter
    are the compilations of the ordinary files in that order.  Given
    another enumeration of the same files, the second build assembles a
    project as well, whose ordinary units are those of the first, each
    with the same content, in the order of the second enumeration; its
    stage unit is the same when only one file is named stage.gs. *)
Theorem build_project_follows_enumeration {P : Parser} {G : Gobomatic}
  (w1 w2 : World) (folder out : string) :
  let files1 := glob w1 (folder ++ "/*.gs")%string in
  let files2 := glob w2 (folder ++ "/*.gs")%string in
  (forall f, read w1 f = read w2 f) ->
  (exists post, files1 = opened (fst (build_project w1 folder out)) ++ post) /\
  (forall p1,
      In (p1, out) (exported (fst (build_project w1 folder out))) ->
      opened (fst (build_project w1 folder out)) = files1 /\
      Forall2 (fun f u => returns (sprite_from_file w1 f None) u)
              (filter is_ordinary_file files1) (tl (gm.sprites p1))) /\
  (Permutation files1 files2 ->
   forall p1,
     In (p1, out) (exported (fst (build_project w1 folder out))) ->
     exists s2 rest2,
       build_project w2 folder out
       = (unit_traces w2 files2 ++ fst (assemble_export w2 (s2 :: rest2) out),
          snd (assemble_export w2 (s2 :: rest2) out)) /\
       Forall2 (fun f u => returns (sprite_from_file w2 f None) u)
               (filter is_ordinary_file files2) rest2 /\
       Permutation (tl (gm.sprites p1)) rest2 /\
       ((forall f g, In f files1 -> In g files1 ->
                     is_stage_file f = true -> is_stage_file g = true ->
                     f = g) ->
        hd_error (gm.sprites p1) = Some s2)).
Proof.
  intros files1 files2 Hread.
  assert (Hshape : forall p1,
             In (p1, out) (exported (fst (build_project w1 folder out))) ->
             exists us1 pre1 sf1 post1 s1 rest1,
               Forall2 (fun f u => returns (unit_of w1 f) u) files1 us1 /\
               (exists f, In f files1 /\ is_stage_file f = true) /\
               files1 = pre1 ++ sf1 :: post1 /\
               is_stage_file sf1 = true /\
               returns (sprite_from_file w1 sf1 (Some "Stage")) s1 /\
               Forall2 (fun f u => returns (sprite_from_file w1 f None) u)
                       (filter is_ordinary_file files1) rest1 /\
               p1 = gm.mkProject (s1 :: rest1)).
  { intros p1 Hin1.
    destruct (build_project_exported w1 folder out p1 out Hin1)
      as (us1 & HF1 & Hex1).
    destruct (build_project_shape w1 folder out us1 Hex1 HF1)
      as (pre1 & sf1 & post1 & s1 & rest1
          & Hfiles1 & Hsf1 & _ & Hs1 & Hrest1 & Hb1).
    destruct (build_project_reached w1 folder out _ _ Hb1
                (unit_traces_exported w1 _) p1 out Hin1) as (_ & Hp & _).
    exists us1, pre1, sf1, post1, s1, rest1. repeat split; assumption. }
  split; [apply (build_project_opened w1 folder out)|]. split.
  - intros p1 Hin1.
    destruct (Hshape p1 Hin1)
      as (us1 & pre1 & sf1 & post1 & s1 & rest1
          & HF1 & _ & _ & _ & _ & Hrest1 & ->).
    split; [|exact Hrest1].
    exact (proj2 (build_project_opened w1 folder out) us1 HF1).
  - intros Hperm p1 Hin1.
    destruct (Hshape p1 Hin1)
      as (us1 & pre1 & sf1 & post1 & s1 & rest1
          & HF1 & Hex1 & Hfiles1 & Hsf1 & Hs1 & Hrest1 & ->).
    assert (Hex2 : exists f, In f files2 /\ is_stage_file f = true).
    { destruct Hex1 as (f & Hf & Hfs). exists f. split; [|exact Hfs].
      exact (Permutation_in f Hperm Hf). }
    assert (HF2 : exists us2,
               Forall2 (fun f u => returns (unit_of w2 f) u) files2 us2).
    { apply Forall2_total. intros x Hx.
      apply (Permutation_in x (Permutation_sym Hperm)) in Hx.
      destruct (Forall2_In_l _ _ _ _ HF1 Hx) as (u & _ & Hu).
      exists u. rewrite <- (unit_of_ext w1 w2 x (Hread x)). exact Hu. }
    destruct HF2 as [us2 HF2].
    destruct (build_project_shape w2 folder out us2 Hex2 HF2)
      as (pre2 & sf2 & post2 & s2 & rest2 & Hfiles2 & Hsf2 & _ & Hs2 & Hrest2 & Hb2).
    fold files2 in Hfiles2, Hrest2, Hb2.
    exists s2, rest2. split; [exact Hb2|]. split; [exact Hrest2|]. split.
    + assert (Hrest2' : Forall2
                (fun f u => returns (sprite_from_file w1 f None) u)
                (filter is_ordinary_file files2) rest2).
      { apply (Forall2_impl_l _ _ _ _ (fun f u _ H =>
                 eq_ind_r (fun m => returns m u) H
                   (sprite_from_file_ext w1 w2 f None (Hread f))) Hrest2). }
      simpl.
      rewrite (Forall2_returns_map _ (gm.new_Sprite "" []) _ _ Hrest1).
      rewrite (Forall2_returns_map _ (gm.new_Sprite "" []) _ _ Hrest2').
      apply Permutation_map. apply filter_Permutation. exact Hperm.
    + intros Huniq.
      assert (Hsf : sf1 = sf2).
      { apply Huniq; try assumption.
        - rewrite Hfiles1. apply in_elt.
        - apply (Permutation_in sf2 (Permutation_sym Hperm)).
          rewrite Hfiles2. apply in_elt. }
      subst sf2.
      rewrite <- (sprite_from_file_ext w1 w2 sf1 (Some "Stage") (Hread sf1))
        in Hs2.
      unfold returns in Hs1, Hs2. rewrite Hs1 in Hs2.
      injection Hs2 as <-. reflexivity.
Qed.

(** The folder of three units under its two enumerations. *)
Lemma build_project_follows_enumeration_witness :
  (forall f, read three_units f = read three_units_reordered f) /\
  exists s2 rest2,
    build_project three_units_reordered "game" "out.sb3"
    = (unit_traces three_units_reordered
         (glob three_units_reordered "game/*.gs")
         ++ fst (assemble_export three_units_reordered (s2 :: rest2) "out.sb3"),
       snd (assemble_export three_units_reordered (s2 :: rest2) "out.sb3")) /\
    Forall2
      (fun f u => returns (sprite_from_file three_units_reordered f None) u)
      (filter is_ordinary_file (glob three_units_reordered "game/*.gs")) rest2 /\
    Permutation
      [gm.mkSprite "player" [""; "cat"] ["x"] [] [Blk "add" ["x"] []];
       gm.mkSprite "enemy" [""; "bat"] [] [] [Blk "add" ["hit"] []]]
      rest2.
Proof.
  assert (Hread : forall f, read three_units f = read three_units_reordered f)
    by (intros f; reflexivity).
  split; [exact Hread|].
  destruct (build_project_follows_enumeration
              three_units three_units_reordered "game" "out.sb3" Hread)
    as (_ & _ & Hperm).
  destruct (Hperm three_units_permuted
              (gm.mkProject
                 [gm.mkSprite "Stage" [""; "backdrop"] [] ["score"] [];
                  gm.mkSprite "player" [""; "cat"] ["x"] [] [Blk "add" ["x"] []];
                  gm.mkSprite "enemy" [""; "bat"] [] [] [Blk "add" ["hit"] []]])
              (or_introl eq_refl))
    as (s2 & rest2 & Hb & Hord & Htl & _).
  exists s2, rest2. split; [exact Hb|]. split; [exact Hord | exact Htl].
Defined.

(** C6 (as stated, refuted).  The folder [*] holds a/stage.gs and
    b/stage.gs.  [build_project] raises no DuplicateStageError: both files
    are compiled, the exporter is entered with a project whose stage is
    the compilation of b/stage.gs, the file discovered last, and the
    exception the build ends with is the exporter's. *)
Lemma two_stage_files_accepted :
  glob two_stages "*/*.gs" = ["a/stage.gs"; "b/stage.gs"] /\
  is_stage_file "a/stage.gs" = true /\
  is_stage_file "b/stage.gs" = true /\
  opened (fst (build_project two_stages "*" "out.sb3"))
  = ["a/stage.gs"; "b/stage.gs"] /\
  exported (fst (build_project two_stages "*" "out.sb3"))
  = [(gm.mkProject [gm.mkSprite "Stage" [""; "night"] [] [] []], "out.sb3")] /\
  raises (build_project two_stages "*" "out.sb3") (OSError "") /\
  ~ raises (build_project two_stages "*" "out.sb3") DuplicateStageError.
Proof.
  repeat (split; [reflexivity|]). unfold raises. vm_compute. discriminate.
Qed.

(** C6 (amended).  If discovery yields more than one file named stage.gs
    and every unit compiles, [build_project] raises no DuplicateStageError
    of its own: each of these files is compiled, and the build goes on to
    [gm.Project(...).export(out)] with the compilation of the one
    discovered last as the first unit. *)
Theorem last_stage_file_wins {P : Parser} {G : Gobomatic} (w : World)
  (folder out : string) (pre post : list string) (g sf : string)
  (us : list gm.Sprite) :
  let files := glob w (folder ++ "/*.gs")%string in
  files = pre ++ sf :: post ->
  In g pre -> is_stage_file g = true ->
  is_stage_file sf = true ->
  Forall (fun f => is_stage_file f = false) post ->
  Forall2 (fun f u => returns (unit_of w f) u) files us ->
  exists s rest,
    returns (sprite_from_file w sf (Some "Stage")) s /\
    build_project w folder out
    = (unit_traces w files ++ fst (assemble_export w (s :: rest) out),
       snd (assemble_export w (s :: rest) out)) /\
    In g (opened (fst (build_project w folder out))) /\
    In sf (opened (fst (build_project w folder out))) /\
    (raises (build_project w folder out) DuplicateStageError ->
     raises (assemble_export w (s :: rest) out) DuplicateStageError) /\
    (Project_init (s :: rest) = Ok tt ->
     exported (fst (build_project w folder out))
     = [(gm.mkProject (s :: rest), out)]).
Proof.
  intros files Hfiles Hg Hgs Hsf Hpost Hus.
  destruct (build_project_shape_at w folder out us pre post sf
              Hfiles Hsf Hpost Hus) as (s & rest & Hs & _ & Hb).
  exists s, rest. rewrite Hb. fold files. simpl.
  rewrite opened_app, exported_app.
  rewrite unit_traces_opened, unit_traces_exported, assemble_export_opened.
  rewrite app_nil_r, Hfiles.
  split; [exact Hs|]. split; [reflexivity|].
  split; [apply in_or_app; left; exact Hg|].
  split; [apply in_elt|].
  split; [intros H; exact H|].
  intros Hinit. rewrite (assemble_export_accepted w _ out Hinit). reflexivity.
Qed.

(** The folder [*] with a/stage.gs and b/stage.gs. *)
Lemma last_stage_file_wins_witness :
  exists s rest,
    returns (sprite_from_file two_stages "b/stage.gs" (Some "Stage")) s /\
    build_project two_stages "*" "out.sb3"
    = (unit_traces two_stages (glob two_stages "*/*.gs")
         ++ fst (assemble_export two_stages (s :: rest) "out.sb3"),
       snd (assemble_export two_stages (s :: rest) "out.sb3")) /\
    In "a/stage.gs" (opened (fst (build_project two_stages "*" "out.sb3"))) /\
    In "b/stage.gs" (opened (fst (build_project two_stages "*" "out.sb3"))) /\
    (raises (build_project two_stages "*" "out.sb3") DuplicateStageError ->
     raises (assemble_export two_stages (s :: rest) "out.sb3")
            DuplicateStageError) /\
    (Project_init (s :: rest) = Ok tt ->
     exported (fst (build_project two_stages "*" "out.sb3"))
     = [(gm.mkProject (s :: rest), "out.sb3")]).
Proof.
  apply (last_stage_file_wins two_stages "*" "out.sb3"
           ["a/stage.gs"] [] "a/stage.gs" "b/stage.gs"
           [gm.mkSprite "Stage" [""; "day"] [] [] [];
            gm.mkSprite "Stage" [""; "night"] [] [] []]).
  - reflexivity.
  - left. reflexivity.
  - reflexivity.
  - reflexivity.
  - constructor.
  - repeat constructor.
Defined.



(** C8.  If the compilation of any unit of the folder fails,
    [build_project] fails and exports nothing: the exporter is not reached
    with a partially built project. *)
Theorem no_export_on_failure {P : Parser} {G : Gobomatic} (w : World) (folder out : string)
  (f : string) (e : exn) :
  In f (glob w (folder ++ "/*.gs")%string) ->
  raises (unit_of w f) e ->
  (exists e', raises (build_project w folder out) e') /\
  exported (fst (build_project w folder out)) = [].
Proof.
  intros Hin Hf.
  destruct (loop_cases w (glob w (folder ++ "/*.gs")%string))
    as [[us Hus]|(pre & g & post & us & e' & Hfiles & Hpre & Hg)].
  - destruct (Forall2_In_l _ _ _ _ Hus Hin) as (u & _ & Hu).
    destruct (returns_raises _ _ _ Hu Hf).
  - rewrite (build_project_raises w folder out pre post g us e' Hfiles Hpre Hg).
    split.
    + exists e'. reflexivity.
    + simpl. rewrite exported_app, unit_traces_exported.
      unfold unit_of. rewrite sprite_from_file_exported. reflexivity.
Qed.

(** Scenario B: ghost.gs fails, nothing is exported. *)
Lemma no_export_on_failure_witness :
  In "game/ghost.gs" (glob scenario_B "game/*.gs") /\
  raises (unit_of scenario_B "game/ghost.gs") (UnresolvedReferenceError "speed") /\
  (exists e', raises (build_project scenario_B "game" "out.sb3") e') /\
  exported (fst (build_project scenario_B "game" "out.sb3")) = [].
Proof.
  assert (Hin : In "game/ghost.gs" (glob scenario_B "game/*.gs"))
    by (left; reflexivity).
  assert (Hr : raises (unit_of scenario_B "game/ghost.gs")
                      (UnresolvedReferenceError "speed"))
    by reflexivity.
  split; [exact Hin|]. split; [exact Hr|].
  exact (no_export_on_failure scenario_B "game" "out.sb3" "game/ghost.gs"
           (UnresolvedReferenceError "speed") Hin Hr).
Defined.

(** C9.  If the folder has no file named stage.gs, [build_project] exports
    no project and fails: once every unit has compiled, by reading the
    local [stage] that was never bound. *)
Theorem no_stage_no_project {P : Parser} {G : Gobomatic} (w : World) (folder out : string) :
  let files := glob w (folder ++ "/*.gs")%string in
  (forall f, In f files -> is_stage_file f = false) ->
  exported (fst (build_project w folder out)) = [] /\
  (exists e, raises (build_project w folder out) e) /\
  (forall us,
      Forall2 (fun f u => returns (unit_of w f) u) files us ->
      build_project w folder out
      = (unit_traces w files, Raise (UnboundLocalError "stage"))).
Proof.
  intros files Hno.
  assert (Hall : Forall (fun f => is_stage_file f = false) files)
    by (apply Forall_forall; exact Hno).
  assert (Hret : forall us,
             Forall2 (fun f u => returns (unit_of w f) u) files us ->
             build_project w folder out
             = (unit_traces w files, Raise (UnboundLocalError "stage"))).
  { intros us Hus. rewrite (build_project_returns w folder out us Hus).
    fold files.
    rewrite (assemble_no_stage _ _ (combine_fst_Forall _ _ _ _ Hus Hall)).
    reflexivity. }
  destruct (loop_cases w files)
    as [[us Hus]|(pre & g & post & us & e' & Hfiles & Hpre & Hg)].
  - rewrite (Hret us Hus). simpl. rewrite unit_traces_exported.
    split; [reflexivity|]. split; [eexists; reflexivity|].
    intros us' _. reflexivity.
  - rewrite (build_project_raises w folder out pre post g us e' Hfiles Hpre Hg).
    simpl. rewrite exported_app, unit_traces_exported.
    unfold unit_of at 1. rewrite sprite_from_file_exported.
    split; [reflexivity|]. split; [eexists; reflexivity|].
    intros us' Hus'. exfalso.
    assert (Hin : In g files) by (rewrite Hfiles; apply in_elt).
    destruct (Forall2_In_l _ _ _ _ Hus' Hin) as (u & _ & Hu).
    exact (returns_raises _ _ _ Hu Hg).
Qed.

(** A folder with player.gs and enemy.gs only. *)
Lemma no_stage_no_project_witness :
  (forall f, In f (glob no_stage "game/*.gs") -> is_stage_file f = false) /\
  exported (fst (build_project no_stage "game" "out.sb3")) = [] /\
  raises (build_project no_stage "game" "out.sb3") (UnboundLocalError "stage").
Proof.
  assert (Hno : forall f, In f (glob no_stage "game/*.gs") ->
                          is_stage_file f = false).
  { intros f [<-|[<-|[]]]; reflexivity. }
  split; [exact Hno|].
  destruct (no_stage_no_project no_stage "game" "out.sb3" Hno) as (He & _ & _).
  split; [exact He | reflexivity].
Defined.

(** C10.  Every unit [sprite_from_file] creates, stage or ordinary, is
    handed to the first pass with a costume sequence that holds exactly one
    costume, of the empty name; the costumes of the unit that is returned
    begin with it, before any costume the passes record. *)
Theorem initial_costume {P : Parser} {HA : Annotating P} (w : World)
  (file : string) (name : option string) (s : gm.Sprite) :
  returns (sprite_from_file w file name) s ->
  (exists text tree shell r1,
      read w file = Ok text /\
      parse text = Ok tree /\
      shell = gm.new_Sprite (py_or name (drop_last 3 (basename file))) [""] /\
      gm.costumes shell = [""] /\
      visit shell tree = Ok r1) /\
  exists cs, gm.costumes s = "" :: cs.
Proof.
  intros Hs.
  destruct (sprite_from_file_inv w file name s Hs)
    as (text & tree & sp1 & fp & sp2 & bs & Hr & Hp & Hv & Ht & ->).
  split.
  - exists text, tree,
      (gm.new_Sprite (py_or name (drop_last 3 (basename file))) [""]),
      (sp1, fp).
    repeat split; assumption.
  - destruct (visit_costumes _ _ _ _ Hv) as [cs1 Hc1].
    destruct (transform_costumes _ _ _ _ _ _ _ Ht) as [cs2 Hc2].
    exists (cs1 ++ cs2). simpl. rewrite Hc2, Hc1. simpl. reflexivity.
Qed.

(** player.gs declares the costume cat: it comes second. *)
Lemma initial_costume_witness :
  returns (sprite_from_file three_units "game/player.gs" None)
          (gm.mkSprite "player" [""; "cat"] ["x"] [] [Blk "add" ["x"] []]) /\
  exists cs,
    gm.costumes (gm.mkSprite "player" [""; "cat"] ["x"] [] [Blk "add" ["x"] []])
    = "" :: cs.
Proof.
  assert (H : returns (sprite_from_file three_units "game/player.gs" None)
                (gm.mkSprite "player" [""; "cat"] ["x"] [] [Blk "add" ["x"] []]))
    by reflexivity.
  split; [exact H|].
  exact (proj2 (@initial_costume SpecParser.parser spec_parser_annotating
                  three_units "game/player.gs" None _ H)).
Defined.

(** ** Further properties of the driver *)

Lemma Forall2_same_length {A B} (R : A -> B -> Prop) (l : list A) :
  forall ys, Forall2 R l ys -> length ys = length l.
Proof.
  induction l as [|a l IH]; intros ys HF; inversion HF; subst; simpl;
    [reflexivity | f_equal; apply IH; assumption].
Qed.

Lemma has_stage_or_not (files : list string) :
  (exists f, In f files /\ is_stage_file f = true) \/
  Forall (fun f => is_stage_file f = false) files.
Proof.
  destruct (existsb is_stage_file files) eqn:Hex.
  - left. apply existsb_exists in Hex. exact Hex.
  - right. apply no_stage_Forall. exact Hex.
Qed.

(** X1.  [build_project] returns exactly when every file of the listing
    compiles, one of them is named stage.gs, and
    [gm.Project(...).export(out)] returns on the compilation of the last
    stage.gs followed by the compilations of the ordinary files. *)
Theorem build_project_returns_iff {P : Parser} {G : Gobomatic} (w : World)
  (folder out : string) :
  let files := glob w (folder ++ "/*.gs")%string in
  returns (build_project w folder out) tt <->
  exists us pre sf post s rest,
    Forall2 (fun f u => returns (unit_of w f) u) files us /\
    files = pre ++ sf :: post /\
    is_stage_file sf = true /\
    Forall (fun f => is_stage_file f = false) post /\
    returns (sprite_from_file w sf (Some "Stage")) s /\
    Forall2 (fun f u => returns (sprite_from_file w f None) u)
            (filter is_ordinary_file files) rest /\
    returns (assemble_export w (s :: rest) out) tt.
Proof.
  intros files. split.
  - intros Hret.
    destruct (loop_cases w files)
      as [[us Hus]|(pre & g & post & us & e & Hfiles & Hpre & Hg)].
    + destruct (has_stage_or_not files) as [Hex|Hall].
      * destruct (build_project_shape w folder out us Hex Hus)
          as (pre & sf & post & s & rest & Hfiles & Hsf & Hpost & Hs & Hrest & Hb).
        exists us, pre, sf, post, s, rest.
        repeat split; try assumption.
        rewrite Hb in Hret. exact Hret.
      * exfalso.
        rewrite (build_project_returns w folder out us Hus) in Hret.
        fold files in Hret.
        rewrite (assemble_no_stage _ _ (combine_fst_Forall _ _ _ _ Hus Hall))
          in Hret.
        discriminate Hret.
    + exfalso.
      rewrite (build_project_raises w folder out pre post g us e Hfiles Hpre Hg)
        in Hret.
      discriminate Hret.
  - intros (us & pre & sf & post & s & rest
            & Hus & Hfiles & Hsf & Hpost & Hs & Hrest & Hret).
    destruct (build_project_shape_at w folder out us pre post sf
                Hfiles Hsf Hpost Hus) as (s' & rest' & Hs' & Hrest' & Hb).
    assert (s' = s) as ->.
    { unfold returns in Hs, Hs'. congruence. }
    assert (rest' = rest) as ->.
    { refine (Forall2_functional _ _ _ _ _ _ Hrest' Hrest).
      intros f u u' _ Hu Hu'. unfold returns in Hu, Hu'. congruence. }
    rewrite Hb. exact Hret.
Qed.

(** X2.  [build_project] enters the exporter at most once, and only as its
    very last action: either it raises with nothing exported, or it has
    opened every file of the listing in order and then entered the
    exporter with one project and [out], and its outcome is the
    exporter's. *)
Theorem build_project_exports_last {P : Parser} {G : Gobomatic} (w : World)
  (folder out : string) :
  let files := glob w (folder ++ "/*.gs")%string in
  ((exists e, raises (build_project w folder out) e) /\
   exported (fst (build_project w folder out)) = []) \/
  (exists t p,
      fst (build_project w folder out) = t ++ [EvExport p out] /\
      exported t = [] /\ opened t = files /\
      snd (build_project w folder out) = Project_export w p out).
Proof.
  intros files.
  destruct (loop_cases w files)
    as [[us Hus]|(pre & g & post & us & e & Hfiles & Hpre & Hg)].
  - destruct (has_stage_or_not files) as [Hex|Hall].
    + destruct (build_project_shape w folder out us Hex Hus)
        as (? & ? & ? & s & rest & _ & _ & _ & _ & _ & Hb).
      rewrite Hb, assemble_export_eq.
      destruct (Project_init (s :: rest)) as [[]|e]; simpl.
      * right. exists (unit_traces w files), (gm.mkProject (s :: rest)).
        split; [reflexivity|].
        split; [apply unit_traces_exported|].
        split; [apply unit_traces_opened | reflexivity].
      * left. split; [eexists; reflexivity|].
        rewrite app_nil_r. apply unit_traces_exported.
    + left.
      rewrite (build_project_returns w folder out us Hus). fold files.
      rewrite (assemble_no_stage _ _ (combine_fst_Forall _ _ _ _ Hus Hall)).
      simpl. split; [eexists; reflexivity | apply unit_traces_exported].
  - left.
    rewrite (build_project_raises w folder out pre post g us e Hfiles Hpre Hg).
    simpl. split; [eexists; reflexivity|].
    rewrite exported_app, unit_traces_exported. unfold unit_of.
    rewrite sprite_from_file_exported. reflexivity.
Qed.

(** X3.  An exported project holds one unit more than the listing has
    ordinary files: of several files named stage.gs only one unit is kept,
    the others are compiled and dropped. *)
Theorem exported_unit_count {P : Parser} {G : Gobomatic} (w : World) (folder out : string)
  (p : gm.Project) (o : string) :
  let files := glob w (folder ++ "/*.gs")%string in
  In (p, o) (exported (fst (build_project w folder out))) ->
  length (gm.sprites p) = S (length (filter is_ordinary_file files)) /\
  opened (fst (build_project w folder out)) = files.
Proof.
  intros files Hin.
  destruct (build_project_exported w folder out p o Hin) as (us & HF & Hex).
  destruct (build_project_shape w folder out us Hex HF)
    as (? & ? & ? & s & rest & _ & _ & _ & _ & Hrest & Hb).
  destruct (build_project_reached w folder out _ _ Hb
              (unit_traces_exported w files) p o Hin) as (_ & -> & _ & _).
  simpl. rewrite (Forall2_same_length _ _ _ Hrest).
  split; [reflexivity|].
  exact (proj2 (build_project_opened w folder out) us HF).
Qed.

Lemma exported_unit_count_witness :
  length (gm.sprites (gm.mkProject [gm.mkSprite "Stage" [""; "night"] [] [] []]))
  = S (length (filter is_ordinary_file (glob two_stages "*/*.gs"))) /\
  opened (fst (build_project two_stages "*" "out.sb3"))
  = glob two_stages "*/*.gs".
Proof.
  apply (exported_unit_count two_stages "*" "out.sb3" _ "out.sb3").
  left. reflexivity.
Defined.

(** X4.  In a folder where the pattern matches no file, [build_project]
    opens nothing, prints nothing, exports nothing and fails on the
    unbound local [stage]. *)
Theorem empty_folder {P : Parser} {G : Gobomatic} (w : World) (folder out : string) :
  glob w (folder ++ "/*.gs")%string = [] ->
  build_project w folder out = ([], Raise (UnboundLocalError "stage")).
Proof.
  intros Hglob. unfold build_project. rewrite Hglob. reflexivity.
Qed.

Lemma empty_folder_witness :
  build_project three_units "elsewhere" "out.sb3"
  = ([], Raise (UnboundLocalError "stage")).
Proof.
  apply (empty_folder three_units "elsewhere" "out.sb3"). reflexivity.
Defined.

Lemma unit_traces_ext {P : Parser} (w1 w2 : World) (l : list string) :
  (forall f, In f l -> read w1 f = read w2 f) ->
  unit_traces w1 l = unit_traces w2 l.
Proof.
  intros H. unfold unit_traces. f_equal. apply map_ext_in.
  intros f Hf. rewrite (unit_of_ext w1 w2 f (H f Hf)). reflexivity.
Qed.

(** X9.  Up to the exporter a build reads nothing but the files of the
    listing: two file systems that enumerate the same files for the
    pattern and hold the same text in these files give the same events,
    and the same outcome unless the exporter is entered; the outcome is
    then the one the exporter has on each file system. *)
Theorem build_project_reads_listed_only {P : Parser} {G : Gobomatic}
  (w1 w2 : World) (folder out : string) :
  glob w1 (folder ++ "/*.gs")%string = glob w2 (folder ++ "/*.gs")%string ->
  (forall f, In f (glob w1 (folder ++ "/*.gs")%string) ->
             read w1 f = read w2 f) ->
  fst (build_project w1 folder out) = fst (build_project w2 folder out) /\
  (exported (fst (build_project w1 folder out)) = [] ->
   snd (build_project w1 folder out) = snd (build_project w2 folder out)) /\
  (forall p o,
      In (p, o) (exported (fst (build_project w1 folder out))) ->
      snd (build_project w1 folder out) = Project_export w1 p out /\
      snd (build_project w2 folder out) = Project_export w2 p out).
Proof.
  intros Hglob Hread.
  set (files := glob w1 (folder ++ "/*.gs")%string) in *.
  assert (Hunit : forall l us,
             (forall f, In f l -> In f files) ->
             Forall2 (fun f u => returns (unit_of w1 f) u) l us ->
             Forall2 (fun f u => returns (unit_of w2 f) u) l us).
  { intros l us Hl. apply Forall2_impl_l. intros f u Hf Hu.
    rewrite <- (unit_of_ext w1 w2 f (Hread f (Hl f Hf))). exact Hu. }
  destruct (loop_cases w1 files)
    as [[us Hus]|(pre & g & post & us & e & Hfiles & Hpre & Hg)].
  - pose proof (build_project_returns w1 folder out us Hus) as H1.
    pose proof (build_project_returns w2 folder out us) as H2.
    simpl in H1, H2. rewrite <- Hglob in H2. fold files in H1, H2.
    specialize (H2 (Hunit files us (fun f H => H) Hus)).
    rewrite <- (unit_traces_ext w1 w2 files Hread) in H2.
    rewrite H1, H2.
    destruct (stage (assemble (mkLocals None []) (combine files us)))
      as [s|]; simpl.
    + rewrite !assemble_export_eq.
      destruct (Project_init _) as [[]|e]; simpl.
      * split; [reflexivity|]. split.
        -- rewrite exported_app. simpl.
           intros H. apply app_eq_nil in H. destruct H as [_ H].
           discriminate H.
        -- rewrite exported_app, unit_traces_exported. simpl.
           intros p o [[= <- _]|[]]. split; reflexivity.
      * rewrite app_nil_r, unit_traces_exported.
        split; [reflexivity|]. split; [reflexivity | intros p o []].
    + rewrite unit_traces_exported.
      split; [reflexivity|]. split; [reflexivity | intros p o []].
  - assert (Hin : forall f, In f (pre ++ [g]) -> In f files).
    { intros f Hf. rewrite Hfiles. apply in_app_or in Hf.
      apply in_or_app. destruct Hf as [Hf|[<-|[]]];
        [left; exact Hf | right; left; reflexivity]. }
    rewrite (build_project_raises w1 folder out pre post g us e Hfiles Hpre Hg).
    assert (Hfiles2 : glob w2 (folder ++ "/*.gs")%string = pre ++ g :: post)
      by (rewrite <- Hglob; exact Hfiles).
    assert (Hg2 : raises (unit_of w2 g) e).
    { rewrite <- (unit_of_ext w1 w2 g);
        [exact Hg | apply Hread, Hin, in_or_app; right; left; reflexivity]. }
    rewrite (build_project_raises w2 folder out pre post g us e Hfiles2
               (Hunit pre us (fun f H => Hin f (in_or_app _ _ _ (or_introl H)))
                  Hpre) Hg2).
    rewrite (unit_traces_ext w1 w2 pre)
      by (intros f Hf; apply Hread, Hin, in_or_app; left; exact Hf).
    rewrite (unit_of_ext w1 w2 g)
      by (apply Hread, Hin, in_or_app; right; left; reflexivity).
    simpl. split; [reflexivity|]. split; [reflexivity|].
    intros p o Hp. exfalso.
    rewrite exported_app, unit_traces_exported in Hp. unfold unit_of in Hp.
    rewrite sprite_from_file_exported in Hp. destruct Hp.
Qed.

(** The folder of three units: a file outside the listing changes what
    the exporter does, and nothing before it. *)
Lemma build_project_reads_listed_only_witness :
  fst (build_project three_units "game" "out.sb3")
  = fst (build_project three_units_and_more "game" "out.sb3") /\
  snd (build_project three_units "game" "out.sb3") = Raise (OSError "") /\
  snd (build_project three_units_and_more "game" "out.sb3")
  = Raise (OSError "backdrop").
Proof.
  destruct (build_project_reads_listed_only three_units three_units_and_more
              "game" "out.sb3" eq_refl) as (Hfst & _ & Hsnd).
  { intros f [<-|[<-|[<-|[]]]]; reflexivity. }
  split; [exact Hfst|].
  destruct (Hsnd (gm.mkProject
                    [gm.mkSprite "Stage" [""; "backdrop"] [] ["score"] [];
                     gm.mkSprite "player" [""; "cat"] ["x"] [] [Blk "add" ["x"] []];
                     gm.mkSprite "enemy" [""; "bat"] [] [] [Blk "add" ["hit"] []]])
                 "out.sb3" (or_introl eq_refl)) as (H1 & H2).
  split; [exact H1 | exact H2].
Defined.

Lemma substring_0_split (n : nat) :
  forall s, exists ext,
    s = (substring 0 n s ++ ext)%string /\
    String.length ext = String.length s - n.
Proof.
  induction n as [|n IH]; intros s.
  - exists s. destruct s; simpl; split; reflexivity.
  - destruct s as [|c s]; simpl.
    + exists EmptyString. split; reflexivity.
    + destruct (IH s) as (ext & Hs & Hl). exists ext.
      split; [rewrite <- Hs; reflexivity | exact Hl].
Qed.

(** X7.  [sprite_from_file] does not look at the extension: without a
    name, the unit of a file whose basename is ASCII text is named by that
    basename less its last three characters, whatever they are; a basename
    of three characters or fewer gives the empty name. *)
Theorem default_name_drops_three {P : Parser} {HA : Annotating P}
  (w : World) (file : string) (s : gm.Sprite) :
  is_ascii (basename file) = true ->
  returns (sprite_from_file w file None) s ->
  (exists ext,
      basename file = (gm.name s ++ ext)%string /\
      String.length ext = Nat.min 3 (String.length (basename file))) /\
  (String.length (basename file) <= 3 -> gm.name s = EmptyString).
Proof.
  intros _ Hs. rewrite (sprite_from_file_name w file None s Hs).
  unfold py_or, drop_last.
  destruct (substring_0_split (String.length (basename file) - 3)
              (basename file)) as (ext & Hb & Hl).
  split.
  - exists ext. split; [exact Hb|].
    rewrite Hl.
    destruct (Nat.min_spec 3 (String.length (basename file)))
      as [[Hlt ->]|[Hge ->]]; lia.
  - intros Hle.
    replace (String.length (basename file) - 3) with 0 by lia.
    destruct (basename file); reflexivity.
Qed.

(** Stage.gs: the name is the basename less .gs. *)
Lemma default_name_drops_three_witness :
  (exists ext,
      basename "game/Stage.gs" = ("Stage" ++ ext)%string /\
      String.length ext = Nat.min 3 (String.length (basename "game/Stage.gs"))) /\
  (String.length (basename "game/Stage.gs") <= 3 -> "Stage" = EmptyString).
Proof.
  apply (@default_name_drops_three SpecParser.parser spec_parser_annotating
           same_names "game/Stage.gs"
           (gm.mkSprite "Stage" [""] ["lives"] [] []));
    reflexivity.
Defined.

Lemma basename_decomp (p : string) :
  has_sep (basename p) = false /\
  (p = basename p \/ exists d, p = (d ++ String sep (basename p))%string).
Proof.
  induction p as [|c r [IHs IHd]]; simpl.
  - split; [reflexivity | left; reflexivity].
  - destruct (has_sep r) eqn:Hr.
    + split; [exact IHs|]. right. destruct IHd as [Heq|[d Hd]].
      * rewrite <- Heq in IHs. congruence.
      * exists (String c d). simpl. rewrite <- Hd. reflexivity.
    + destruct (Ascii.eqb c sep) eqn:Hc.
      * split; [exact Hr|]. right. exists EmptyString. simpl.
        apply Ascii.eqb_eq in Hc. rewrite Hc. reflexivity.
      * split; [simpl; rewrite Hc, Hr; reflexivity | left; reflexivity].
Qed.

(** X8.  The loop takes a discovered path for the stage exactly when its
    last component is stage.gs, in this very spelling: the path is
    stage.gs itself or ends in /stage.gs. *)
Theorem is_stage_file_iff (file : string) :
  is_stage_file file = true <->
  file = "stage.gs" \/ exists d, file = (d ++ "/stage.gs")%string.
Proof.
  unfold is_stage_file. rewrite String.eqb_eq. split.
  - intros Hb. destruct (basename_decomp file) as [_ [Heq|[d Hd]]].
    + left. rewrite Heq. exact Hb.
    + right. exists d. rewrite Hd, Hb. reflexivity.
  - intros [->|[d ->]]; [reflexivity|].
    apply (basename_join d "stage.gs"). reflexivity.
Qed.
